(** * Request builders of the security-plugin role API (package opensearchapi)

    A shallow embedding of the four generated endpoints

      - role create/update          (api.role.create.go, RoleCreateRequest)
      - role-mapping delete         (api.role.create.go, RoleMappingDeleteRequest)
      - role-mapping create/update  (api.role.put_mapping.go, RoleMappingCreateRequest)
      - role delete                 (RoleDeleteRequest)

    Each endpoint builds a request configuration from functional options and
    then runs [Do], which talks to two collaborators: the request-construction
    helper [newRequest] and the transport's [Perform].  Both are calls out of
    this package, so [Do] is embedded as a program over those two calls and
    the theorems quantify over whatever the collaborators answer. *)

From Stdlib Require Import ZArith Ascii String List.
From stdpp Require Import base option list gmap strings fin_maps pretty sorting.

Local Open Scope string_scope.
Local Open Scope list_scope.
Local Open Scope Z_scope.

(** ** Go library values the generated code manipulates *)

(** [time.Duration] is an [int64] count of nanoseconds; the code only
    compares it with zero and hands it to [formatDuration]. *)
Abbreviation Duration := Z.

Definition Second : Duration := 1000000000.

(** [io.Reader]: the builders never read the stream, they forward it.  The
    model keeps the bytes the stream would deliver. *)
Record Reader := mkReader { reader_bytes : list Byte.byte }.

(** [context.Context] and [error] are interface values that are only passed
    along; a handle is enough to tell two of them apart. *)
Record Context := mkContext { ctx_id : nat }.
Record error := errorString { error_msg : string }.

(** *** net/textproto: canonical header keys *)

Module textproto.

Definition in_range (lo hi : nat) (c : ascii) : bool :=
  (lo <=? nat_of_ascii c)%nat && (nat_of_ascii c <=? hi)%nat.

Definition is_lower : ascii -> bool := in_range 97 122.
Definition is_upper : ascii -> bool := in_range 65 90.
Definition is_digit : ascii -> bool := in_range 48 57.

(** [validHeaderFieldByte]: the token characters of RFC 7230. *)
Definition validHeaderFieldByte (c : ascii) : bool :=
  is_lower c || is_upper c || is_digit c ||
  existsb (Ascii.eqb c)
    ["!"; "#"; "$"; "%"; "&"; "'"; "*"; "+"; "-"; "."; "^"; "_"; "`"; "|"; "~"]%char.

Definition toLower : nat := 32.

Fixpoint all_valid (s : string) : bool :=
  match s with
  | EmptyString => true
  | String c s' => validHeaderFieldByte c && all_valid s'
  end.

(** The rewriting loop of [canonicalMIMEHeaderKey]: upper case for the
    first letter and for a letter after a dash, lower case elsewhere. *)
Fixpoint canonicalize (upper : bool) (s : string) : string :=
  match s with
  | EmptyString => EmptyString
  | String c s' =>
      let c' :=
        if upper && is_lower c then ascii_of_nat (nat_of_ascii c - toLower)
        else if negb upper && is_upper c then ascii_of_nat (nat_of_ascii c + toLower)
        else c in
      String c' (canonicalize (Ascii.eqb c' "-") s')
  end.

(** [CanonicalMIMEHeaderKey]: a key holding a byte that is not a token
    character (a space included) is returned unchanged. *)
Definition CanonicalMIMEHeaderKey (s : string) : string :=
  if all_valid s then canonicalize true s else s.

End textproto.

(** *** net/http: Header.Add and Header.Set *)

Module http.

(** [http.Header] is a [map[string][]string]. *)
Abbreviation Header := (gmap string (list string)).

(** [h[key] = append(h[key], value)] under the canonical key. *)
Definition Header_Add (h : Header) (key value : string) : Header :=
  let key := textproto.CanonicalMIMEHeaderKey key in
  <[key := default [] (h !! key) ++ [value]]> h.

(** [h[key] = []string{value}] under the canonical key. *)
Definition Header_Set (h : Header) (key value : string) : Header :=
  <[textproto.CanonicalMIMEHeaderKey key := [value]]> h.

End http.

(** *** net/url: Values.Set *)

Module url.

(** [url.Values] is a [map[string][]string]. *)
Abbreviation Values := (gmap string (list string)).

(** [v[key] = []string{value}]; query keys are not canonicalised. *)
Definition Values_Set (q : Values) (key value : string) : Values :=
  <[key := [value]]> q.

(** The part of [url.URL] the builders touch. *)
Record URL := mkURL { Path : string; RawQuery : string }.

End url.

(** *** strings.Builder and strings.Join *)

Module strings.

Record Builder := mkBuilder { buf : string }.

Definition Builder_zero : Builder := mkBuilder "".

(** [Grow] reserves capacity; the contents are unchanged. *)
Definition Grow (b : Builder) (n : nat) : Builder := b.

Definition WriteString (b : Builder) (s : string) : Builder :=
  mkBuilder (buf b +:+ s).

Definition Builder_String (b : Builder) : string := buf b.

Definition Join (elems : list string) (sep : string) : string :=
  String.concat sep elems.

End strings.

(** *** net/http: the request and response values *)

Module HTTPRequest.
(** The fields of [http.Request] the builders read or write.  [Header] is
    the allocated map the helper hands back; [ctx] is [None] for the
    background context a fresh request carries. *)
Record t := mk {
  Method : string;
  URL : url.URL;
  Header : http.Header;
  Body : option Reader;
  ctx : option Context
}.

(** [req.WithContext(ctx)]: a shallow copy carrying [c]. *)
Definition WithContext (req : t) (c : Context) : t :=
  {| Method := Method req; URL := URL req; Header := Header req;
     Body := Body req; ctx := Some c |}.

(** [req.URL.RawQuery = s]. *)
Definition set_RawQuery (req : t) (s : string) : t :=
  {| Method := Method req;
     URL := {| url.Path := url.Path (URL req); url.RawQuery := s |};
     Header := Header req; Body := Body req; ctx := ctx req |}.

(** [req.Header = h], and [req.Header[k] = v] through it. *)
Definition set_Header (req : t) (h : http.Header) : t :=
  {| Method := Method req; URL := URL req; Header := h;
     Body := Body req; ctx := ctx req |}.
End HTTPRequest.

Module HTTPResponse.
(** The fields of [http.Response] that the wrapper copies. *)
Record t := mk {
  StatusCode : Z;
  Header : http.Header;
  Body : Reader
}.
End HTTPResponse.

(** ** Declarations of the package that the endpoints use *)

(** [Response], the package's normalized response. *)
Module Response.
Record t := mk {
  StatusCode : Z;
  Body : Reader;
  Header : http.Header
}.
End Response.

(** The duration formatter and the two content-type declarations are package
    level names defined outside the endpoint files; the endpoints are verified
    for every value they may have. *)
Class Package := {
  formatDuration : Duration -> string;
  headerContentType : string;
  headerContentTypeJSON : list string
}.

(** What the Go runtime and net/url contribute: the order in which [range]
    visits a map (unspecified, but each entry exactly once), the parser behind
    [URL.Query] and [Values.Encode]. *)
Class GoRuntime := {
  range_ : forall {V : Type}, gmap string V -> list (string * V);
  range_perm : forall (V : Type) (m : gmap string V), range_ m ≡ₚ map_to_list m;
  URL_Query : url.URL -> url.Values;
  Values_Encode : url.Values -> string
}.

(** ** Programs over the two collaborators

    [newRequest(method, path, body)] and [transport.Perform(req)] answer with
    a value or a non-nil error.  The transport that [Do] and the endpoint
    constructors receive as an argument is the collaborator that answers
    [Call_Perform]. *)
Inductive Prog (A : Type) : Type :=
| Ret (a : A)
| Call_newRequest (method path : string) (body : option Reader)
    (k : HTTPRequest.t + error -> Prog A)
| Call_Perform (req : HTTPRequest.t) (k : HTTPResponse.t + error -> Prog A).

Arguments Ret {A} a.
Arguments Call_newRequest {A} method path body k.
Arguments Call_Perform {A} req k.

(** One entry per call made, with the answer received. *)
Inductive Event : Type :=
| EvNewRequest (method path : string) (body : option Reader) (ans : HTTPRequest.t + error)
| EvPerform (req : HTTPRequest.t) (ans : HTTPResponse.t + error).

Record Collaborators := {
  answer_newRequest : string -> string -> option Reader -> HTTPRequest.t + error;
  answer_Perform : HTTPRequest.t -> HTTPResponse.t + error
}.

(** Running a program against given collaborators: the value returned and the
    calls made, in order. *)
Fixpoint run {A : Type} (E : Collaborators) (p : Prog A) : A * list Event :=
  match p with
  | Ret a => (a, [])
  | Call_newRequest method path body k =>
      let ans := answer_newRequest E method path body in
      let '(a, tr) := run E (k ans) in
      (a, EvNewRequest method path body ans :: tr)
  | Call_Perform req k =>
      let ans := answer_Perform E req in
      let '(a, tr) := run E (k ans) in
      (a, EvPerform req ans :: tr)
  end.

(** The requests that reached the transport. *)
Definition performed (tr : list Event) : list HTTPRequest.t :=
  omap (fun ev => match ev with EvPerform req _ => Some req | _ => None end) tr.

(** ** The request configuration

    [RoleCreateRequest], [RoleDeleteRequest], [RoleMappingCreateRequest] and
    [RoleMappingDeleteRequest] are four struct types declared with the same
    fields in the same order; one record stands for the four.  [Header] is
    [None] for the nil map and [Some] for an allocated one; [Body] and [ctx]
    are [None] for the nil interface. *)
Record RequestConfig := mkRequestConfig {
  Role : string;

  Body : option Reader;

  MasterTimeout : Duration;
  ClusterManagerTimeout : Duration;
  Timeout : Duration;
  WaitForActiveShards : string;

  Pretty : bool;
  Human : bool;
  ErrorTrace : bool;
  FilterPath : list string;

  Header : option http.Header;

  ctx : option Context
}.

Abbreviation RoleCreateRequest := RequestConfig.
Abbreviation RoleDeleteRequest := RequestConfig.
Abbreviation RoleMappingCreateRequest := RequestConfig.
Abbreviation RoleMappingDeleteRequest := RequestConfig.

(** [XRequest{Role: role}]: every other field has its zero value. *)
Definition zero_request (role : string) : RequestConfig :=
  {| Role := role; Body := None;
     MasterTimeout := 0; ClusterManagerTimeout := 0; Timeout := 0;
     WaitForActiveShards := "";
     Pretty := false; Human := false; ErrorTrace := false; FilterPath := [];
     Header := None; ctx := None |}.

(** ** Option mutators

    The twelve [With...] methods have the same bodies on the four endpoint
    types.  A mutator takes a pointer to the
    request struct and writes to it: here, a function from the configuration
    before to the configuration after. *)
Module Options.
Section Options.
Context `{GoRuntime}.

Definition WithContext (v : option Context) (r : RequestConfig) : RequestConfig :=
  {| Role := Role r; Body := Body r;
     MasterTimeout := MasterTimeout r; ClusterManagerTimeout := ClusterManagerTimeout r;
     Timeout := Timeout r; WaitForActiveShards := WaitForActiveShards r;
     Pretty := Pretty r; Human := Human r; ErrorTrace := ErrorTrace r;
     FilterPath := FilterPath r; Header := Header r; ctx := v |}.

Definition WithBody (v : option Reader) (r : RequestConfig) : RequestConfig :=
  {| Role := Role r; Body := v;
     MasterTimeout := MasterTimeout r; ClusterManagerTimeout := ClusterManagerTimeout r;
     Timeout := Timeout r; WaitForActiveShards := WaitForActiveShards r;
     Pretty := Pretty r; Human := Human r; ErrorTrace := ErrorTrace r;
     FilterPath := FilterPath r; Header := Header r; ctx := ctx r |}.

Definition WithMasterTimeout (v : Duration) (r : RequestConfig) : RequestConfig :=
  {| Role := Role r; Body := Body r;
     MasterTimeout := v; ClusterManagerTimeout := ClusterManagerTimeout r;
     Timeout := Timeout r; WaitForActiveShards := WaitForActiveShards r;
     Pretty := Pretty r; Human := Human r; ErrorTrace := ErrorTrace r;
     FilterPath := FilterPath r; Header := Header r; ctx := ctx r |}.

Definition WithClusterManagerTimeout (v : Duration) (r : RequestConfig) : RequestConfig :=
  {| Role := Role r; Body := Body r;
     MasterTimeout := MasterTimeout r; ClusterManagerTimeout := v;
     Timeout := Timeout r; WaitForActiveShards := WaitForActiveShards r;
     Pretty := Pretty r; Human := Human r; ErrorTrace := ErrorTrace r;
     FilterPath := FilterPath r; Header := Header r; ctx := ctx r |}.

Definition WithTimeout (v : Duration) (r : RequestConfig) : RequestConfig :=
  {| Role := Role r; Body := Body r;
     MasterTimeout := MasterTimeout r; ClusterManagerTimeout := ClusterManagerTimeout r;
     Timeout := v; WaitForActiveShards := WaitForActiveShards r;
     Pretty := Pretty r; Human := Human r; ErrorTrace := ErrorTrace r;
     FilterPath := FilterPath r; Header := Header r; ctx := ctx r |}.

Definition WithWaitForActiveShards (v : string) (r : RequestConfig) : RequestConfig :=
  {| Role := Role r; Body := Body r;
     MasterTimeout := MasterTimeout r; ClusterManagerTimeout := ClusterManagerTimeout r;
     Timeout := Timeout r; WaitForActiveShards := v;
     Pretty := Pretty r; Human := Human r; ErrorTrace := ErrorTrace r;
     FilterPath := FilterPath r; Header := Header r; ctx := ctx r |}.

Definition WithPretty (r : RequestConfig) : RequestConfig :=
  {| Role := Role r; Body := Body r;
     MasterTimeout := MasterTimeout r; ClusterManagerTimeout := ClusterManagerTimeout r;
     Timeout := Timeout r; WaitForActiveShards := WaitForActiveShards r;
     Pretty := true; Human := Human r; ErrorTrace := ErrorTrace r;
     FilterPath := FilterPath r; Header := Header r; ctx := ctx r |}.

Definition WithHuman (r : RequestConfig) : RequestConfig :=
  {| Role := Role r; Body := Body r;
     MasterTimeout := MasterTimeout r; ClusterManagerTimeout := ClusterManagerTimeout r;
     Timeout := Timeout r; WaitForActiveShards := WaitForActiveShards r;
     Pretty := Pretty r; Human := true; ErrorTrace := ErrorTrace r;
     FilterPath := FilterPath r; Header := Header r; ctx := ctx r |}.

Definition WithErrorTrace (r : RequestConfig) : RequestConfig :=
  {| Role := Role r; Body := Body r;
     MasterTimeout := MasterTimeout r; ClusterManagerTimeout := ClusterManagerTimeout r;
     Timeout := Timeout r; WaitForActiveShards := WaitForActiveShards r;
     Pretty := Pretty r; Human := Human r; ErrorTrace := true;
     FilterPath := FilterPath r; Header := Header r; ctx := ctx r |}.

Definition WithFilterPath (v : list string) (r : RequestConfig) : RequestConfig :=
  {| Role := Role r; Body := Body r;
     MasterTimeout := MasterTimeout r; ClusterManagerTimeout := ClusterManagerTimeout r;
     Timeout := Timeout r; WaitForActiveShards := WaitForActiveShards r;
     Pretty := Pretty r; Human := Human r; ErrorTrace := ErrorTrace r;
     FilterPath := v; Header := Header r; ctx := ctx r |}.

(** [r.Header = h]. *)
Definition set_Header (h : option http.Header) (r : RequestConfig) : RequestConfig :=
  {| Role := Role r; Body := Body r;
     MasterTimeout := MasterTimeout r; ClusterManagerTimeout := ClusterManagerTimeout r;
     Timeout := Timeout r; WaitForActiveShards := WaitForActiveShards r;
     Pretty := Pretty r; Human := Human r; ErrorTrace := ErrorTrace r;
     FilterPath := FilterPath r; Header := h; ctx := ctx r |}.

(** [if r.Header == nil { r.Header = make(http.Header) }]: the map the
    following statements write to. *)
Definition made_Header (r : RequestConfig) : http.Header :=
  match Header r with
  | None => ∅
  | Some h => h
  end.

(** The loop [for k, v := range h { r.Header.Add(k, v) }] for a given
    visiting order of the entries of [h]. *)
Definition add_all (visit : list (string * string)) (hd : http.Header) : http.Header :=
  foldl (fun hd kv => http.Header_Add hd kv.1 kv.2) hd visit.

Definition WithHeader (h : gmap string string) (r : RequestConfig) : RequestConfig :=
  set_Header (Some (add_all (range_ h) (made_Header r))) r.

Definition WithOpaqueID (s : string) (r : RequestConfig) : RequestConfig :=
  set_Header (Some (http.Header_Set (made_Header r) "X-Opaque-Id" s)) r.

End Options.
End Options.

Module RoleCreate := Options.
Module RoleDelete := Options.
Module RoleMappingCreate := Options.
Module RoleMappingDelete := Options.

(** ** Dispatch: the [Do] methods *)

(** What [Do] returns: a pointer to a [Response] and an [error], [None]
    standing for nil. *)
Abbreviation DoResult := (option Response.t * option error)%type.

Section Dispatch.
Context `{Package} `{GoRuntime}.

(** The block of [if] statements filling [params]: a key is written only
    when its field differs from the zero value. *)
Definition collect_params (r : RequestConfig) : gmap string string :=
  let params : gmap string string := ∅ in
  let params :=
    if negb (MasterTimeout r =? 0)
    then <["master_timeout" := formatDuration (MasterTimeout r)]> params else params in
  let params :=
    if negb (ClusterManagerTimeout r =? 0)
    then <["cluster_manager_timeout" := formatDuration (ClusterManagerTimeout r)]> params
    else params in
  let params :=
    if negb (Timeout r =? 0)
    then <["timeout" := formatDuration (Timeout r)]> params else params in
  let params :=
    if negb (String.eqb (WaitForActiveShards r) "")
    then <["wait_for_active_shards" := WaitForActiveShards r]> params else params in
  let params := if Pretty r then <["pretty" := "true"]> params else params in
  let params := if Human r then <["human" := "true"]> params else params in
  let params := if ErrorTrace r then <["error_trace" := "true"]> params else params in
  let params :=
    if (0 <? length (FilterPath r))%nat
    then <["filter_path" := strings.Join (FilterPath r) ","]> params else params in
  params.

(** [for k, v := range params { q.Set(k, v) }]. *)
Definition set_all (visit : list (string * string)) (q : url.Values) : url.Values :=
  foldl (fun q kv => url.Values_Set q kv.1 kv.2) q visit.

(** [if len(params) > 0 { q := req.URL.Query(); ...; req.URL.RawQuery = q.Encode() }]. *)
Definition encode_params (params : gmap string string) (req : HTTPRequest.t) : HTTPRequest.t :=
  if (0 <? size params)%nat then
    let q := URL_Query (HTTPRequest.URL req) in
    let q := set_all (range_ params) q in
    HTTPRequest.set_RawQuery req (Values_Encode q)
  else req.

(** [if r.Body != nil { req.Header[headerContentType] = headerContentTypeJSON }]:
    a plain map assignment, the key is used as declared. *)
Definition set_content_type (r : RequestConfig) (req : HTTPRequest.t) : HTTPRequest.t :=
  match Body r with
  | Some _ =>
      HTTPRequest.set_Header req
        (<[headerContentType := headerContentTypeJSON]> (HTTPRequest.Header req))
  | None => req
  end.

(** The nested loops [for k, vv := range r.Header { for _, v := range vv
    { req.Header.Add(k, v) } }] for a given visiting order. *)
Definition add_each (visit : list (string * list string)) (hd : http.Header) : http.Header :=
  foldl (fun hd kvv => foldl (fun hd v => http.Header_Add hd kvv.1 v) hd kvv.2) hd visit.

(** [if len(r.Header) > 0 { if len(req.Header) == 0 { req.Header = r.Header }
    else { ... Add ... } }]; the length of a nil map is zero. *)
Definition merge_header (r : RequestConfig) (req : HTTPRequest.t) : HTTPRequest.t :=
  match Header r with
  | Some h =>
      if (0 <? size h)%nat then
        if (size (HTTPRequest.Header req) =? 0)%nat
        then HTTPRequest.set_Header req h
        else HTTPRequest.set_Header req (add_each (range_ h) (HTTPRequest.Header req))
      else req
  | None => req
  end.

(** [if ctx != nil { req = req.WithContext(ctx) }]. *)
Definition bind_context (ctx : option Context) (req : HTTPRequest.t) : HTTPRequest.t :=
  match ctx with
  | Some c => HTTPRequest.WithContext req c
  | None => req
  end.

(** [Response{StatusCode: res.StatusCode, Body: res.Body, Header: res.Header}]. *)
Definition wrap_response (res : HTTPResponse.t) : Response.t :=
  {| Response.StatusCode := HTTPResponse.StatusCode res;
     Response.Body := HTTPResponse.Body res;
     Response.Header := HTTPResponse.Header res |}.

(** The tail shared by the four methods: hand [req] to the transport,
    return its error, or wrap its response. *)
Definition perform (req : HTTPRequest.t) : Prog DoResult :=
  Call_Perform req (fun ans =>
    match ans with
    | inr err => Ret (None, Some err)
    | inl res => Ret (Some (wrap_response res), None)
    end).

(** [Do] of the two create/update requests.  The two methods differ in the
    capacity passed to [Grow] and in the path prefix only. *)
Definition create_Do (capacity : nat) (prefix : string)
    (r : RequestConfig) (ctx : option Context) : Prog DoResult :=
  let method := "PUT" in
  let path := strings.Builder_zero in
  let path := strings.Grow path (capacity + String.length (Role r)) in
  let path := strings.WriteString path prefix in
  let path := strings.WriteString path (Role r) in
  let params := collect_params r in
  Call_newRequest method (strings.Builder_String path) (Body r) (fun ans =>
    match ans with
    | inr err => Ret (None, Some err)
    | inl req =>
        let req := encode_params params req in
        let req := set_content_type r req in
        let req := merge_header r req in
        let req := bind_context ctx req in
        perform req
    end).

(** [Do] of the two delete requests: no parameters, no body, no headers. *)
Definition delete_Do (capacity : nat) (prefix : string)
    (r : RequestConfig) (ctx : option Context) : Prog DoResult :=
  let method := "DELETE" in
  let path := strings.Builder_zero in
  let path := strings.Grow path (capacity + String.length (Role r)) in
  let path := strings.WriteString path prefix in
  let path := strings.WriteString path (Role r) in
  Call_newRequest method (strings.Builder_String path) None (fun ans =>
    match ans with
    | inr err => Ret (None, Some err)
    | inl req =>
        let req := bind_context ctx req in
        perform req
    end).

End Dispatch.

Module RoleCreateRequest.
Definition Do `{Package} `{GoRuntime} : RoleCreateRequest -> option Context -> Prog DoResult :=
  create_Do 30 "/_plugins/_security/api/roles/".
End RoleCreateRequest.

Module RoleMappingCreateRequest.
Definition Do `{Package} `{GoRuntime} : RoleMappingCreateRequest -> option Context -> Prog DoResult :=
  create_Do 37 "/_plugins/_security/api/rolesmapping/".
End RoleMappingCreateRequest.

Module RoleDeleteRequest.
Definition Do : RoleDeleteRequest -> option Context -> Prog DoResult :=
  delete_Do 30 "/_plugins/_security/api/roles/".
End RoleDeleteRequest.

Module RoleMappingDeleteRequest.
Definition Do : RoleMappingDeleteRequest -> option Context -> Prog DoResult :=
  delete_Do 37 "/_plugins/_security/api/rolesmapping/".
End RoleMappingDeleteRequest.

(** ** Endpoint constructors *)

(** [for _, f := range o { f(&r) }]: the options run in slice order. *)
Definition apply_options (o : list (RequestConfig -> RequestConfig))
    (r : RequestConfig) : RequestConfig :=
  foldl (fun r f => f r) r o.

Section Constructors.
Context `{Package} `{GoRuntime}.

Definition newRoleCreateFunc (role : string)
    (o : list (RoleCreateRequest -> RoleCreateRequest)) : Prog DoResult :=
  let r := apply_options o (zero_request role) in
  RoleCreateRequest.Do r (ctx r).

Definition newRoleMappingCreateFunc (role : string)
    (o : list (RoleMappingCreateRequest -> RoleMappingCreateRequest)) : Prog DoResult :=
  let r := apply_options o (zero_request role) in
  RoleMappingCreateRequest.Do r (ctx r).

Definition newRoleDeleteFunc (role : string)
    (o : list (RoleDeleteRequest -> RoleDeleteRequest)) : Prog DoResult :=
  let r := apply_options o (zero_request role) in
  RoleDeleteRequest.Do r (ctx r).

Definition newRoleMappingDeleteFunc (role : string)
    (o : list (RoleMappingDeleteRequest -> RoleMappingDeleteRequest)) : Prog DoResult :=
  let r := apply_options o (zero_request role) in
  RoleMappingDeleteRequest.Do r (ctx r).

End Constructors.

(** ** The four operations, side by side *)

Inductive Operation : Type :=
| OpRoleCreate
| OpRoleDelete
| OpRoleMappingCreate
| OpRoleMappingDelete.

Definition is_create (op : Operation) : bool :=
  match op with
  | OpRoleCreate | OpRoleMappingCreate => true
  | OpRoleDelete | OpRoleMappingDelete => false
  end.

Definition method_of (op : Operation) : string :=
  if is_create op then "PUT" else "DELETE".

Definition prefix_of (op : Operation) : string :=
  match op with
  | OpRoleCreate | OpRoleDelete => "/_plugins/_security/api/roles/"
  | OpRoleMappingCreate | OpRoleMappingDelete => "/_plugins/_security/api/rolesmapping/"
  end.

(** The body argument each [Do] passes to [newRequest]. *)
Definition body_of (op : Operation) (r : RequestConfig) : option Reader :=
  if is_create op then Body r else None.

Section Operations.
Context `{Package} `{GoRuntime}.

Definition Do_of (op : Operation) : RequestConfig -> option Context -> Prog DoResult :=
  match op with
  | OpRoleCreate => RoleCreateRequest.Do
  | OpRoleDelete => RoleDeleteRequest.Do
  | OpRoleMappingCreate => RoleMappingCreateRequest.Do
  | OpRoleMappingDelete => RoleMappingDeleteRequest.Do
  end.

Definition endpoint (op : Operation) :
    string -> list (RequestConfig -> RequestConfig) -> Prog DoResult :=
  match op with
  | OpRoleCreate => newRoleCreateFunc
  | OpRoleDelete => newRoleDeleteFunc
  | OpRoleMappingCreate => newRoleMappingCreateFunc
  | OpRoleMappingDelete => newRoleMappingDeleteFunc
  end.

(** What a create/update [Do] makes of the request the helper built. *)
Definition prepare_create (r : RequestConfig) (ctx : option Context)
    (req : HTTPRequest.t) : HTTPRequest.t :=
  bind_context ctx (merge_header r (set_content_type r (encode_params (collect_params r) req))).

(** The request each [Do] hands to the transport, given the helper's. *)
Definition prepare (op : Operation) (r : RequestConfig) (ctx : option Context)
    (req : HTTPRequest.t) : HTTPRequest.t :=
  if is_create op then prepare_create r ctx req else bind_context ctx req.

End Operations.

(** ** The recognized option mutators, as data *)

Inductive Field : Type :=
| F_ctx | F_Body | F_MasterTimeout | F_ClusterManagerTimeout | F_Timeout
| F_WaitForActiveShards | F_Pretty | F_Human | F_ErrorTrace | F_FilterPath
| F_Header.

Inductive Setter : Type :=
| SetContext (v : option Context)
| SetBody (v : option Reader)
| SetMasterTimeout (v : Duration)
| SetClusterManagerTimeout (v : Duration)
| SetTimeout (v : Duration)
| SetWaitForActiveShards (v : string)
| SetPretty
| SetHuman
| SetErrorTrace
| SetFilterPath (v : list string)
| SetHeader (h : gmap string string)
| SetOpaqueID (s : string).

(** The field of the configuration a mutator assigns. *)
Definition field_written (s : Setter) : Field :=
  match s with
  | SetContext _ => F_ctx
  | SetBody _ => F_Body
  | SetMasterTimeout _ => F_MasterTimeout
  | SetClusterManagerTimeout _ => F_ClusterManagerTimeout
  | SetTimeout _ => F_Timeout
  | SetWaitForActiveShards _ => F_WaitForActiveShards
  | SetPretty => F_Pretty
  | SetHuman => F_Human
  | SetErrorTrace => F_ErrorTrace
  | SetFilterPath _ => F_FilterPath
  | SetHeader _ => F_Header
  | SetOpaqueID _ => F_Header
  end.

Definition mutator `{GoRuntime} (s : Setter) : RequestConfig -> RequestConfig :=
  match s with
  | SetContext v => Options.WithContext v
  | SetBody v => Options.WithBody v
  | SetMasterTimeout v => Options.WithMasterTimeout v
  | SetClusterManagerTimeout v => Options.WithClusterManagerTimeout v
  | SetTimeout v => Options.WithTimeout v
  | SetWaitForActiveShards v => Options.WithWaitForActiveShards v
  | SetPretty => Options.WithPretty
  | SetHuman => Options.WithHuman
  | SetErrorTrace => Options.WithErrorTrace
  | SetFilterPath v => Options.WithFilterPath v
  | SetHeader h => Options.WithHeader h
  | SetOpaqueID s => Options.WithOpaqueID s
  end.

(** The second mutator replaces what the first wrote: both assign the same
    plain field, or both are [WithOpaqueID]. *)
Definition overwrites (a b : Setter) : bool :=
  match a, b with
  | SetContext _, SetContext _
  | SetBody _, SetBody _
  | SetMasterTimeout _, SetMasterTimeout _
  | SetClusterManagerTimeout _, SetClusterManagerTimeout _
  | SetTimeout _, SetTimeout _
  | SetWaitForActiveShards _, SetWaitForActiveShards _
  | SetPretty, SetPretty
  | SetHuman, SetHuman
  | SetErrorTrace, SetErrorTrace
  | SetFilterPath _, SetFilterPath _
  | SetOpaqueID _, SetOpaqueID _ => true
  | _, _ => false
  end.

(** ** Collaborators used to evaluate the endpoints on examples *)

(** Modelled from the spec: [newRequest], the request-construction helper,
    is declared outside the endpoint files.  The spec has it "construct the
    base HTTP request object with method, path, and body (body forwarded
    as-is; absence means no body)"; the identifier is "used verbatim in the
    path", and a call without options has an "empty query string".  The spec
    leaves open which inputs are malformed: this helper accepts all. *)
Definition newRequest (method path : string) (body : option Reader) : HTTPRequest.t + error :=
  inl {| HTTPRequest.Method := method;
         HTTPRequest.URL := {| url.Path := path; url.RawQuery := "" |};
         HTTPRequest.Header := ∅;
         HTTPRequest.Body := body;
         HTTPRequest.ctx := None |}.

(** A helper that rejects every input. *)
Definition newRequest_failing (e : error) (method path : string) (body : option Reader)
    : HTTPRequest.t + error :=
  inr e.

(** A transport that answers 200 with an empty body, and one that is down. *)
Definition transport_ok (req : HTTPRequest.t) : HTTPResponse.t + error :=
  inl {| HTTPResponse.StatusCode := 200;
         HTTPResponse.Header := ∅;
         HTTPResponse.Body := mkReader [] |}.

Definition transport_down (e : error) (req : HTTPRequest.t) : HTTPResponse.t + error :=
  inr e.

(** Modelled from the spec: [formatDuration], [headerContentType] and
    [headerContentTypeJSON] are declared outside the endpoint files.  The
    spec speaks of a "duration grammar (e.g., "30s")" and of "the
    content-type header" set to "a fixed JSON media type". *)
#[export] Instance spec_package : Package := {|
  formatDuration d := pretty (d / Second) +:+ "s";
  headerContentType := "Content-Type";
  headerContentTypeJSON := ["application/json"]
|}.

(** A runtime for the examples: [range] visits the entries in the order of
    [map_to_list]; the examples start from an empty raw query, which parses
    to no values; [Encode] writes [k=v] pairs joined by [&], and the examples
    hold no character that needs escaping. *)
#[export] Instance example_runtime : GoRuntime := {|
  range_ V m := map_to_list m;
  range_perm V m := reflexivity (map_to_list m);
  URL_Query u := ∅;
  Values_Encode q :=
    String.concat "&"
      (map (fun kv => kv.1 +:+ "=" +:+ String.concat "," kv.2)
           (merge_sort (fun a b => String.leb a.1 b.1) (map_to_list q)))
|}.

(** ** Vocabulary of the statements *)

(** The query keys the create/update methods can write. *)
Definition recognized_keys : list string :=
  ["master_timeout"; "cluster_manager_timeout"; "timeout"; "wait_for_active_shards";
   "pretty"; "human"; "error_trace"; "filter_path"].

(** The values a visiting order of the caller's headers contributes under
    [key]: those of every entry whose canonical key is [key]. *)
Definition caller_values (key : string) (visit : list (string * list string)) : list string :=
  concat (map (fun kvv =>
                 if decide (textproto.CanonicalMIMEHeaderKey kvv.1 = key)
                 then kvv.2 else []) visit).

Definition caller_header_values `{GoRuntime} (r : RequestConfig) (key : string) : list string :=
  match Header r with
  | Some h => caller_values key (range_ h)
  | None => []
  end.

(** Collaborators for the examples: the helper of the spec and a transport
    that answers. *)
Definition E_ok : Collaborators :=
  {| answer_newRequest := newRequest; answer_Perform := transport_ok |}.

(** ** Vocabulary of the further properties *)

(** The byte the canonicalising loop writes for [c] when the flag is
    [upper]: the [let] of [textproto.canonicalize], named. *)
Definition canonical_byte (upper : bool) (c : ascii) : ascii :=
  if upper && textproto.is_lower c then ascii_of_nat (nat_of_ascii c - textproto.toLower)
  else if negb upper && textproto.is_upper c
       then ascii_of_nat (nat_of_ascii c + textproto.toLower)
       else c.

(** Every key of the header set is in canonical form. *)
Definition canonical_keys (h : http.Header) : Prop :=
  map_Forall (fun k _ => textproto.CanonicalMIMEHeaderKey k = k) h.

(** The header set of the configuration, if allocated, has canonical keys. *)
Definition canonical_header (r : RequestConfig) : Prop :=
  match Header r with
  | Some h => canonical_keys h
  | None => True
  end.

(** The canonical forms of the keys of a [WithHeader] argument, in a given
    visiting order. *)
Definition canonical_forms (visit : list (string * string)) : list string :=
  map (fun kv => textproto.CanonicalMIMEHeaderKey kv.1) visit.

(** A runtime whose [range] visits every map in the opposite order. *)
Definition reversed (R : GoRuntime) : GoRuntime :=
  {| range_ V m := reverse (@range_ R V m);
     range_perm V m :=
       ltac:(rewrite reverse_Permutation; exact (@range_perm R V m));
     URL_Query := @URL_Query R;
     Values_Encode := @Values_Encode R |}.

(** A transport that answers 404 with a two-byte JSON body. *)
Definition transport_not_found (req : HTTPRequest.t) : HTTPResponse.t + error :=
  inl {| HTTPResponse.StatusCode := 404;
         HTTPResponse.Header := {[ "Content-Type" := ["application/json"] ]};
         HTTPResponse.Body := mkReader [Byte.x7b; Byte.x7d] |}.

(** All 256 bytes. *)
Definition all_bytes : list ascii := map ascii_of_nat (seq 0 256).

(** * Properties *)

(** ** The library models on small inputs *)

Example canon_lower : textproto.CanonicalMIMEHeaderKey "x-opaque-id" = "X-Opaque-Id".
Proof. reflexivity. Qed.

Example canon_space : textproto.CanonicalMIMEHeaderKey "x y" = "x y".
Proof. reflexivity. Qed.

Example add_twice :
  http.Header_Add (http.Header_Add ∅ "x" "1") "X" "2" !! "X" = Some ["1"; "2"].
Proof. vm_compute. reflexivity. Qed.

Example join_three : strings.Join ["a"; "b"; "c"] "," = "a,b,c".
Proof. reflexivity. Qed.


(** ** Running a [Do]: the three possible courses *)

Section Courses.
Context `{Package} `{GoRuntime}.

Lemma builder_path (capacity : nat) (prefix role : string) :
  strings.Builder_String
    (strings.WriteString
       (strings.WriteString
          (strings.Grow strings.Builder_zero (capacity + String.length role)) prefix)
       role)
  = prefix +:+ role.
Proof. reflexivity. Qed.

Lemma endpoint_Do_of (op : Operation) (role : string)
    (o : list (RequestConfig -> RequestConfig)) :
  endpoint op role o
  = Do_of op (apply_options o (zero_request role)) (ctx (apply_options o (zero_request role))).
Proof. destruct op; reflexivity. Qed.

(** A run makes the helper call first; it stops there on an error, and
    otherwise makes exactly one transport call with the prepared request. *)
Lemma run_Do_of (E : Collaborators) (op : Operation) (r : RequestConfig)
    (c : option Context) :
  run E (Do_of op r c) =
    let path := prefix_of op +:+ Role r in
    match answer_newRequest E (method_of op) path (body_of op r) with
    | inr err =>
        ((None, Some err),
         [EvNewRequest (method_of op) path (body_of op r) (inr err)])
    | inl req0 =>
        let req := prepare op r c req0 in
        match answer_Perform E req with
        | inr err =>
            ((None, Some err),
             [EvNewRequest (method_of op) path (body_of op r) (inl req0);
              EvPerform req (inr err)])
        | inl res =>
            ((Some (wrap_response res), None),
             [EvNewRequest (method_of op) path (body_of op r) (inl req0);
              EvPerform req (inl res)])
        end
    end.
Proof.
  destruct op;
    unfold Do_of, prepare, prepare_create, RoleCreateRequest.Do,
      RoleMappingCreateRequest.Do, RoleDeleteRequest.Do, RoleMappingDeleteRequest.Do,
      create_Do, delete_Do, perform;
    rewrite builder_path; simpl;
    (destruct (answer_newRequest E _ _ _) as [req0|err]; simpl; [ | reflexivity ]);
    destruct (answer_Perform E _) as [res|err]; reflexivity.
Qed.

End Courses.

(** ** Facts about strings *)

Lemma substring_append_whole (b : string) : substring 0 (String.length b) b = b.
Proof. induction b as [|ch b IH]; simpl; [reflexivity | now rewrite IH]. Qed.

Lemma substring_append_head (a b : string) :
  substring 0 (String.length a) (a +:+ b) = a.
Proof.
  induction a as [|ch a IH]; simpl.
  - destruct b; reflexivity.
  - now rewrite IH.
Qed.

Lemma substring_append_tail (a b : string) :
  substring (String.length a) (String.length b) (a +:+ b) = b.
Proof.
  induction a as [|ch a IH]; simpl.
  - apply substring_append_whole.
  - exact IH.
Qed.

Lemma length_append (a b : string) :
  String.length (a +:+ b) = (String.length a + String.length b)%nat.
Proof. induction a as [|ch a IH]; simpl; [reflexivity | now rewrite IH]. Qed.

(** ** What the preparation steps leave alone *)

Section Untouched.
Context `{Package} `{GoRuntime}.

Lemma prepare_Path op r c req :
  url.Path (HTTPRequest.URL (prepare op r c req)) = url.Path (HTTPRequest.URL req).
Proof.
  unfold prepare, prepare_create, bind_context, merge_header, set_content_type, encode_params.
  repeat (case_match; simpl); reflexivity.
Qed.

Lemma prepare_Body op r c req :
  HTTPRequest.Body (prepare op r c req) = HTTPRequest.Body req.
Proof.
  unfold prepare, prepare_create, bind_context, merge_header, set_content_type, encode_params.
  repeat (case_match; simpl); reflexivity.
Qed.

Lemma bind_context_URL c req :
  HTTPRequest.URL (bind_context c req) = HTTPRequest.URL req.
Proof. destruct c; reflexivity. Qed.

Lemma bind_context_Header c req :
  HTTPRequest.Header (bind_context c req) = HTTPRequest.Header req.
Proof. destruct c; reflexivity. Qed.

Lemma bind_context_Body c req :
  HTTPRequest.Body (bind_context c req) = HTTPRequest.Body req.
Proof. destruct c; reflexivity. Qed.

End Untouched.

(** ** C1 *)

(** C1.  A role-mapping delete call for role "readall" with a 5-second
    timeout option asks the helper for a DELETE request on
    /_plugins/_security/api/rolesmapping/readall with no body and hands the
    request it gets to the transport as it is; with the helper of the spec
    that request has an empty query string.  For every configuration, the
    [Do] of a delete is the [Do] of the configuration that only holds the
    role: none of the query-parameter fields is serialized, set or not. *)
Theorem rolemapping_delete_readall_request (E : Collaborators) :
  let call :=
    newRoleMappingDeleteFunc "readall" [RoleMappingDelete.WithTimeout (5 * Second)] in
  let path := "/_plugins/_security/api/rolesmapping/readall" in
  (run E call).2 =
    match answer_newRequest E "DELETE" path None with
    | inl req0 =>
        [EvNewRequest "DELETE" path None (inl req0); EvPerform req0 (answer_Perform E req0)]
    | inr err => [EvNewRequest "DELETE" path None (inr err)]
    end
  /\ performed
       (run {| answer_newRequest := newRequest; answer_Perform := answer_Perform E |} call).2
     = [ {| HTTPRequest.Method := "DELETE";
            HTTPRequest.URL := {| url.Path := path; url.RawQuery := "" |};
            HTTPRequest.Header := ∅;
            HTTPRequest.Body := None;
            HTTPRequest.ctx := None |} ]
  /\ (forall (r : RoleMappingDeleteRequest) (c : option Context),
        RoleMappingDeleteRequest.Do r c
        = RoleMappingDeleteRequest.Do (zero_request (Role r)) c)
  /\ (forall (r : RoleDeleteRequest) (c : option Context),
        RoleDeleteRequest.Do r c = RoleDeleteRequest.Do (zero_request (Role r)) c)
  /\ (forall (r : RequestConfig) (c : option Context) (req0 : HTTPRequest.t),
        HTTPRequest.URL (prepare OpRoleMappingDelete r c req0) = HTTPRequest.URL req0
        /\ HTTPRequest.URL (prepare OpRoleDelete r c req0) = HTTPRequest.URL req0).
Proof.
  cbv zeta. split; [ | split; [ | split; [ | split; [ | split ] ] ] ]; intros.
  - change (newRoleMappingDeleteFunc "readall" [RoleMappingDelete.WithTimeout (5 * Second)])
      with (Do_of OpRoleMappingDelete
              (RoleMappingDelete.WithTimeout (5 * Second) (zero_request "readall")) None).
    rewrite run_Do_of.
    cbv [prepare is_create bind_context method_of body_of prefix_of Role zero_request
         Options.WithTimeout String.append].
    destruct (answer_newRequest E _ _ _) as [req0|err]; [ | reflexivity ].
    destruct (answer_Perform E req0); reflexivity.
  - change (newRoleMappingDeleteFunc "readall" [RoleMappingDelete.WithTimeout (5 * Second)])
      with (Do_of OpRoleMappingDelete
              (RoleMappingDelete.WithTimeout (5 * Second) (zero_request "readall")) None).
    rewrite run_Do_of.
    cbv [prepare is_create bind_context method_of body_of prefix_of Role zero_request
         Options.WithTimeout String.append].
    cbn [answer_newRequest answer_Perform newRequest].
    destruct (answer_Perform E _); reflexivity.
  - reflexivity.
  - reflexivity.
  - apply bind_context_URL.
  - apply bind_context_URL.
Qed.

(** ** C2 *)

(** C2.  For every identifier, the empty one included, the role-create [Do]
    asks the helper for the path made of the prefix /_plugins/_security/api/roles/
    followed by the identifier, byte for byte: the prefix is the first 30
    bytes, the identifier is all that follows, and the request that reaches
    the transport has the path of the request the helper built (with the
    helper of the spec: that very string). *)
Theorem role_create_path `{Package} `{GoRuntime}
    (E : Collaborators) (r : RoleCreateRequest) (c : option Context) :
  let prefix := "/_plugins/_security/api/roles/" in
  let path := prefix +:+ Role r in
  let ans := answer_newRequest E "PUT" path (Body r) in
  (exists rest,
     (run E (RoleCreateRequest.Do r c)).2 = EvNewRequest "PUT" path (Body r) ans :: rest
     /\ map (fun q => url.Path (HTTPRequest.URL q)) (performed rest)
        = match ans with
          | inl req0 => [url.Path (HTTPRequest.URL req0)]
          | inr _ => []
          end)
  /\ map (fun q => url.Path (HTTPRequest.URL q))
       (performed
          (run {| answer_newRequest := newRequest; answer_Perform := answer_Perform E |}
             (RoleCreateRequest.Do r c)).2)
     = [path]
  /\ String.length path = (30 + String.length (Role r))%nat
  /\ substring 0 30 path = prefix
  /\ substring 30 (String.length (Role r)) path = Role r.
Proof.
  cbv zeta. split; [ | split; [ | split; [ | split ] ] ].
  - change (RoleCreateRequest.Do r c) with (Do_of OpRoleCreate r c).
    rewrite run_Do_of. cbv zeta.
    change (method_of OpRoleCreate) with "PUT".
    change (body_of OpRoleCreate r) with (Body r).
    change (prefix_of OpRoleCreate) with "/_plugins/_security/api/roles/".
    destruct (answer_newRequest E _ _ _) as [req0|err].
    + destruct (answer_Perform E _) as [res|err];
        (eexists; split; [reflexivity | ]); cbn [performed omap map];
        simpl; now rewrite prepare_Path.
    + eexists; split; reflexivity.
  - change (RoleCreateRequest.Do r c) with (Do_of OpRoleCreate r c).
    rewrite run_Do_of. cbv zeta.
    cbn [answer_newRequest answer_Perform newRequest].
    destruct (answer_Perform E _) as [res|err]; simpl; now rewrite prepare_Path.
  - apply length_append.
  - apply (substring_append_head "/_plugins/_security/api/roles/").
  - apply (substring_append_tail "/_plugins/_security/api/roles/").
Qed.

(** ** C3 *)

Lemma apply_options_app (o1 o2 : list (RequestConfig -> RequestConfig)) (r : RequestConfig) :
  apply_options (o1 ++ o2) r = apply_options o2 (apply_options o1 r).
Proof. unfold apply_options. apply foldl_app. Qed.

(** The options run strictly in call order. *)
Lemma apply_options_cons (f : RequestConfig -> RequestConfig)
    (o : list (RequestConfig -> RequestConfig)) (r : RequestConfig) :
  apply_options (f :: o) r = apply_options o (f r).
Proof. reflexivity. Qed.

Lemma overwrites_same_field (a b : Setter) :
  overwrites a b = true -> field_written a = field_written b.
Proof. destruct a, b; simpl; intros Hab; (discriminate || reflexivity). Qed.

(** Two mutators of one field, the second of which is not a header mutator,
    are a pair that overwrites. *)
Lemma same_plain_field_overwrites (a b : Setter) :
  field_written a = field_written b -> field_written b <> F_Header ->
  overwrites a b = true.
Proof. destruct a, b; simpl; intros Hab Hb; (discriminate || congruence || reflexivity). Qed.

Lemma overwrites_last_wins `{GoRuntime} (a b : Setter) (r : RequestConfig) :
  overwrites a b = true -> mutator b (mutator a r) = mutator b r.
Proof.
  destruct a, b; simpl; intros Hab; try discriminate; try reflexivity.
  unfold Options.WithOpaqueID, Options.set_Header, Options.made_Header, http.Header_Set; simpl.
  now rewrite insert_insert_eq.
Qed.

(** C3, as stated, fails: [WithHeader] with X: 1 followed by [WithHeader]
    with X: 2 both write the Header field of the configuration of role
    "readall", and the result holds X: [1, 2] where [WithHeader] with X: 2
    alone gives X: [2].  Each map has one entry, so the order in which
    [range] visits it plays no part. *)
Lemma with_header_twice_accumulates :
  let a := SetHeader {[ "X" := "1" ]} in
  let b := SetHeader {[ "X" := "2" ]} in
  let r := zero_request "readall" in
  field_written a = field_written b
  /\ Header (mutator b (mutator a r)) = Some {[ "X" := ["1"; "2"] ]}
  /\ Header (mutator b r) = Some {[ "X" := ["2"] ]}
  /\ mutator b (mutator a r) <> mutator b r.
Proof.
  cbv zeta. split; [reflexivity | ].
  assert (H12 : Header (mutator (SetHeader {[ "X" := "2" ]})
                  (mutator (SetHeader {[ "X" := "1" ]}) (zero_request "readall")))
                = Some {[ "X" := ["1"; "2"] ]}) by (vm_compute; reflexivity).
  assert (H2 : Header (mutator (SetHeader {[ "X" := "2" ]}) (zero_request "readall"))
               = Some {[ "X" := ["2"] ]}) by (vm_compute; reflexivity).
  split; [exact H12 | split; [exact H2 | ]].
  intros Heq. rewrite Heq, H2 in H12.
  apply (f_equal (fun o => o ≫= (.!! "X"))) in H12.
  vm_compute in H12. discriminate H12.
Qed.

Lemma overwrites_spec (a b : Setter) :
  overwrites a b = true <->
  field_written a = field_written b
  /\ (field_written b <> F_Header \/ exists s t, a = SetOpaqueID s /\ b = SetOpaqueID t).
Proof.
  split.
  - intros Hab. split; [now apply overwrites_same_field | ].
    destruct a, b; simpl in *; try discriminate; try (left; discriminate).
    right. eauto.
  - intros [Hf [Hb | (s & t & -> & ->)]]; [ | reflexivity ].
    now apply same_plain_field_overwrites.
Qed.

(** C3, amended.  The options of an endpoint call run in call order, and
    wherever two consecutive ones assign the same plain field (context, body,
    a timeout, wait-for-active-shards, a flag, the filter path) or are both
    [WithOpaqueID], the configuration is the one obtained without the first
    of the two. *)
Theorem later_option_overwrites `{GoRuntime} (a b : Setter) :
  overwrites a b = true ->
  (forall r : RequestConfig, mutator b (mutator a r) = mutator b r)
  /\ (forall (role : string) (before after : list (RequestConfig -> RequestConfig)),
        apply_options (before ++ [mutator a; mutator b] ++ after) (zero_request role)
        = apply_options (before ++ [mutator b] ++ after) (zero_request role)).
Proof.
  intros Hab. split.
  - intros r. now apply overwrites_last_wins.
  - intros role before after.
    rewrite !apply_options_app, !apply_options_cons.
    now rewrite (overwrites_last_wins a b).
Qed.

Lemma later_option_overwrites_witness :
  overwrites (SetTimeout (5 * Second)) (SetTimeout Second) = true
  /\ apply_options
       ([mutator SetPretty] ++ [mutator (SetTimeout (5 * Second)); mutator (SetTimeout Second)]
          ++ [mutator (SetOpaqueID "t-1")])
       (zero_request "readall")
     = apply_options
         ([mutator SetPretty] ++ [mutator (SetTimeout Second)] ++ [mutator (SetOpaqueID "t-1")])
         (zero_request "readall").
Proof.
  split; [reflexivity | ].
  apply (later_option_overwrites (SetTimeout (5 * Second)) (SetTimeout Second)).
  reflexivity.
Defined.

(** ** C4 *)

Section HeaderMerge.
Context `{Package} `{GoRuntime}.

Lemma add_values_lookup (k key : string) (vv : list string) (hd : http.Header)
    (J : list string) :
  hd !! key = Some J ->
  foldl (fun hd v => http.Header_Add hd k v) hd vv !! key
  = Some (J ++ (if decide (textproto.CanonicalMIMEHeaderKey k = key) then vv else [])).
Proof.
  revert hd J. induction vv as [|v vv IH]; intros hd J HJ; simpl.
  - rewrite HJ. destruct (decide _); now rewrite app_nil_r.
  - destruct (decide (textproto.CanonicalMIMEHeaderKey k = key)) as [Heq|Hne].
    + rewrite (IH _ (J ++ [v])).
      * now rewrite <- app_assoc.
      * unfold http.Header_Add. rewrite Heq, HJ. simpl. apply lookup_insert_eq.
    + rewrite (IH _ J).
      * reflexivity.
      * unfold http.Header_Add. now rewrite lookup_insert_ne.
Qed.

Lemma add_each_lookup (key : string) (visit : list (string * list string))
    (hd : http.Header) (J : list string) :
  hd !! key = Some J ->
  add_each visit hd !! key = Some (J ++ caller_values key visit).
Proof.
  revert hd J. induction visit as [|[k vv] visit IH]; intros hd J HJ.
  - simpl. unfold caller_values. simpl. now rewrite app_nil_r.
  - change (add_each ((k, vv) :: visit) hd)
      with (add_each visit (foldl (fun hd v => http.Header_Add hd k v) hd vv)).
    rewrite (IH _ _ (add_values_lookup k key vv hd J HJ)).
    unfold caller_values. simpl. now rewrite <- app_assoc.
Qed.

Lemma range_empty {V : Type} (m : gmap string V) : size m = 0%nat -> range_ m = [].
Proof.
  intros Hm. apply map_size_empty_iff in Hm. subst m.
  apply Permutation_nil_r. rewrite <- (map_to_list_empty (M := gmap string) (A := V)).
  apply range_perm.
Qed.

(** With a body, the content-type entry is written first and the caller's
    headers are added after it. *)
Lemma prepare_create_content_type (r : RequestConfig) (c : option Context)
    (b : Reader) (req0 : HTTPRequest.t) :
  Body r = Some b ->
  HTTPRequest.Header (prepare_create r c req0) !! headerContentType
  = Some (headerContentTypeJSON ++ caller_header_values r headerContentType).
Proof.
  intros Hb. unfold prepare_create. rewrite bind_context_Header.
  unfold merge_header, set_content_type, caller_header_values. rewrite Hb.
  destruct (Header r) as [h|]; simpl.
  - destruct (0 <? size h)%nat eqn:Hsz.
    + destruct (size _ =? 0)%nat eqn:Hz.
      * apply Nat.eqb_eq, map_size_empty_iff in Hz.
        now apply insert_non_empty in Hz.
      * simpl. apply add_each_lookup. apply lookup_insert_eq.
    + apply Nat.ltb_ge in Hsz.
      rewrite range_empty by lia. simpl.
      rewrite app_nil_r. apply lookup_insert_eq.
  - rewrite app_nil_r. apply lookup_insert_eq.
Qed.

End HeaderMerge.

Lemma caller_values_none (key : string) (visit : list (string * list string)) :
  Forall (fun kvv => textproto.CanonicalMIMEHeaderKey kvv.1 <> key) visit ->
  caller_values key visit = [].
Proof.
  unfold caller_values. induction 1 as [|[k vv] visit Hk _ IH]; simpl; [reflexivity | ].
  simpl in Hk. now rewrite decide_False, IH by exact Hk.
Qed.

(** C4, as stated, fails on the delete operations: a role delete whose
    configuration holds the two-byte body "{}" asks the helper for a request
    without body and never writes the content-type entry, so the request that
    reaches the transport has neither. *)
Lemma delete_with_body_sets_no_content_type :
  let r := RoleDelete.WithBody (Some (mkReader [Byte.x7b; Byte.x7d])) (zero_request "readall") in
  Body r <> None
  /\ exists req,
       performed (run E_ok (Do_of OpRoleDelete r (ctx r))).2 = [req]
       /\ HTTPRequest.Header req !! headerContentType <> Some headerContentTypeJSON
       /\ HTTPRequest.Header req = ∅
       /\ HTTPRequest.Body req = None.
Proof.
  cbv zeta. split; [discriminate | ].
  eexists. split; [reflexivity | ]. split; [ | split; reflexivity ].
  vm_compute. discriminate.
Qed.

(** C4, amended.  For the two create/update operations, when the body field
    is non-nil and the helper builds a request, the request that reaches the
    transport holds, under the content-type key, the fixed JSON value followed
    by the values the caller's own headers bring under that key (none, unless
    the caller passed a content-type header), whatever the bytes of the body;
    the body is the one the helper put in the request. *)
Theorem create_body_content_type `{Package} `{GoRuntime}
    (E : Collaborators) (op : Operation) (r : RequestConfig) (c : option Context)
    (b : Reader) (req0 : HTTPRequest.t) :
  is_create op = true ->
  Body r = Some b ->
  answer_newRequest E (method_of op) (prefix_of op +:+ Role r) (Body r) = inl req0 ->
  exists req,
    performed (run E (Do_of op r c)).2 = [req]
    /\ HTTPRequest.Header req !! headerContentType
       = Some (headerContentTypeJSON ++ caller_header_values r headerContentType)
    /\ ((forall (h : http.Header) (k : string),
           Header r = Some h -> is_Some (h !! k) ->
           textproto.CanonicalMIMEHeaderKey k <> headerContentType) ->
        HTTPRequest.Header req !! headerContentType = Some headerContentTypeJSON)
    /\ HTTPRequest.Body req = HTTPRequest.Body req0.
Proof.
  intros Hop Hb Hans.
  assert (Hct : HTTPRequest.Header (prepare op r c req0) !! headerContentType
                = Some (headerContentTypeJSON ++ caller_header_values r headerContentType)).
  { unfold prepare. rewrite Hop. now apply prepare_create_content_type with (b := b). }
  exists (prepare op r c req0). split; [ | split; [ | split ] ].
  - rewrite run_Do_of. cbv zeta. unfold body_of. rewrite Hop, Hans.
    destruct (answer_Perform E _); reflexivity.
  - exact Hct.
  - intros Hnone. rewrite Hct. f_equal.
    rewrite <- (app_nil_r headerContentTypeJSON) at 2. f_equal.
    unfold caller_header_values. destruct (Header r) as [h|] eqn:Hh; [ | reflexivity ].
    apply caller_values_none, Forall_forall. intros [k vv] Hin.
    apply (Hnone h k eq_refl). exists vv.
    apply elem_of_map_to_list. now rewrite <- (range_perm _ h).
  - apply prepare_Body.
Qed.

Lemma create_body_content_type_witness :
  exists req,
    performed
      (run E_ok
         (Do_of OpRoleMappingCreate
            (RoleMappingCreate.WithBody (Some (mkReader [Byte.x7b; Byte.x7d]))
               (zero_request "readall")) None)).2 = [req]
    /\ HTTPRequest.Header req !! "Content-Type" = Some ["application/json"]
    /\ HTTPRequest.Body req = Some (mkReader [Byte.x7b; Byte.x7d]).
Proof.
  destruct (create_body_content_type E_ok OpRoleMappingCreate
           (RoleMappingCreate.WithBody (Some (mkReader [Byte.x7b; Byte.x7d]))
              (zero_request "readall"))
           None (mkReader [Byte.x7b; Byte.x7d])
           {| HTTPRequest.Method := "PUT";
              HTTPRequest.URL :=
                {| url.Path := "/_plugins/_security/api/rolesmapping/readall";
                   url.RawQuery := "" |};
              HTTPRequest.Header := ∅;
              HTTPRequest.Body := Some (mkReader [Byte.x7b; Byte.x7d]);
              HTTPRequest.ctx := None |}
           eq_refl eq_refl eq_refl) as (req & Hreq & Hct & _ & Hbody).
  exists req. split; [exact Hreq | split; [exact Hct | exact Hbody]].
Defined.

(** ** C5 *)

Lemma lookup_cond_insert (b : bool) (k k' v : string) (m : gmap string string) :
  (if b then <[k' := v]> m else m) !! k
  = if decide (k' = k) then (if b then Some v else m !! k) else m !! k.
Proof.
  destruct b, (decide (k' = k)) as [->|Hne]; try reflexivity.
  - apply lookup_insert_eq.
  - now apply lookup_insert_ne.
Qed.

Section Params.
Context `{Package} `{GoRuntime}.

Ltac params_lookup :=
  unfold collect_params; cbv zeta; rewrite !lookup_cond_insert;
  repeat (rewrite decide_False by discriminate);
  rewrite ?decide_True by reflexivity;
  rewrite ?lookup_empty.

(** Each key is present exactly when its field is not the zero value, and
    then carries the field's formatted value. *)
Lemma collect_params_lookup (r : RequestConfig) :
  collect_params r !! "master_timeout"
    = (if MasterTimeout r =? 0 then None else Some (formatDuration (MasterTimeout r)))
  /\ collect_params r !! "cluster_manager_timeout"
    = (if ClusterManagerTimeout r =? 0 then None
       else Some (formatDuration (ClusterManagerTimeout r)))
  /\ collect_params r !! "timeout"
    = (if Timeout r =? 0 then None else Some (formatDuration (Timeout r)))
  /\ collect_params r !! "wait_for_active_shards"
    = (if String.eqb (WaitForActiveShards r) "" then None else Some (WaitForActiveShards r))
  /\ collect_params r !! "pretty" = (if Pretty r then Some "true" else None)
  /\ collect_params r !! "human" = (if Human r then Some "true" else None)
  /\ collect_params r !! "error_trace" = (if ErrorTrace r then Some "true" else None)
  /\ collect_params r !! "filter_path"
    = (match FilterPath r with [] => None | _ => Some (strings.Join (FilterPath r) ",") end).
Proof.
  repeat split; params_lookup.
  - now destruct (MasterTimeout r =? 0).
  - now destruct (ClusterManagerTimeout r =? 0).
  - now destruct (Timeout r =? 0).
  - now destruct (String.eqb _ _).
  - now destruct (Pretty r).
  - now destruct (Human r).
  - now destruct (ErrorTrace r).
  - now destruct (FilterPath r).
Qed.

Lemma collect_params_keys (r : RequestConfig) (k : string) :
  is_Some (collect_params r !! k) -> k ∈ recognized_keys.
Proof.
  unfold collect_params; cbv zeta; rewrite !lookup_cond_insert.
  unfold recognized_keys.
  repeat (destruct (decide (_ = k)) as [<-|_]; [intros _; set_solver | ]).
  rewrite lookup_empty. now intros [? ?].
Qed.

Lemma encode_params_empty (req : HTTPRequest.t) : encode_params ∅ req = req.
Proof. reflexivity. Qed.

Lemma set_content_type_URL r req :
  HTTPRequest.URL (set_content_type r req) = HTTPRequest.URL req.
Proof. unfold set_content_type. now destruct (Body r). Qed.

Lemma merge_header_URL r req :
  HTTPRequest.URL (merge_header r req) = HTTPRequest.URL req.
Proof. unfold merge_header. repeat case_match; reflexivity. Qed.

(** Without parameters, no [Do] touches the URL of the helper's request. *)
Lemma prepare_URL_no_params op r c req :
  collect_params r = ∅ ->
  HTTPRequest.URL (prepare op r c req) = HTTPRequest.URL req.
Proof.
  intros Hp. unfold prepare, prepare_create. rewrite Hp, encode_params_empty.
  destruct (is_create op); rewrite bind_context_URL; [ | reflexivity ].
  now rewrite merge_header_URL, set_content_type_URL.
Qed.

End Params.

(** C5.  When every query-parameter field of the configuration has its zero
    value, no parameter is collected and, for each of the four operations,
    the request that reaches the transport has the URL of the request the
    helper built, untouched: with the helper of the spec its query string is
    empty.  For every configuration, a key is collected only when its field
    is not the zero value, and only the eight recognized keys ever are. *)
Theorem zero_fields_empty_query `{Package} `{GoRuntime}
    (E : Collaborators) (op : Operation) (r : RequestConfig) (c : option Context) :
  MasterTimeout r = 0 ->
  ClusterManagerTimeout r = 0 ->
  Timeout r = 0 ->
  WaitForActiveShards r = "" ->
  Pretty r = false ->
  Human r = false ->
  ErrorTrace r = false ->
  FilterPath r = [] ->
  collect_params r = ∅
  /\ map HTTPRequest.URL (performed (run E (Do_of op r c)).2)
     = match answer_newRequest E (method_of op) (prefix_of op +:+ Role r) (body_of op r) with
       | inl req0 => [HTTPRequest.URL req0]
       | inr _ => []
       end
  /\ map (fun q => url.RawQuery (HTTPRequest.URL q))
       (performed
          (run {| answer_newRequest := newRequest; answer_Perform := answer_Perform E |}
             (Do_of op r c)).2)
     = [""]
  /\ (forall (r' : RequestConfig),
        (MasterTimeout r' = 0 -> collect_params r' !! "master_timeout" = None)
        /\ (ClusterManagerTimeout r' = 0 ->
            collect_params r' !! "cluster_manager_timeout" = None)
        /\ (Timeout r' = 0 -> collect_params r' !! "timeout" = None)
        /\ (WaitForActiveShards r' = "" ->
            collect_params r' !! "wait_for_active_shards" = None)
        /\ (Pretty r' = false -> collect_params r' !! "pretty" = None)
        /\ (Human r' = false -> collect_params r' !! "human" = None)
        /\ (ErrorTrace r' = false -> collect_params r' !! "error_trace" = None)
        /\ (FilterPath r' = [] -> collect_params r' !! "filter_path" = None)
        /\ (forall k, is_Some (collect_params r' !! k) -> k ∈ recognized_keys)).
Proof.
  intros Hmt Hcmt Ht Hw Hp Hh He Hf.
  assert (Hparams : collect_params r = ∅).
  { unfold collect_params. now rewrite Hmt, Hcmt, Ht, Hw, Hp, Hh, He, Hf. }
  split; [exact Hparams | ]. split; [ | split ].
  - rewrite run_Do_of. cbv zeta.
    destruct (answer_newRequest E _ _ _) as [req0|err]; [ | reflexivity ].
    destruct (answer_Perform E _); simpl; now rewrite prepare_URL_no_params.
  - rewrite run_Do_of. cbv zeta. cbn [answer_newRequest answer_Perform newRequest].
    destruct (answer_Perform E _); simpl; now rewrite prepare_URL_no_params.
  - intros r'.
    destruct (collect_params_lookup r') as (L1 & L2 & L3 & L4 & L5 & L6 & L7 & L8).
    repeat split.
    + intros Hz. now rewrite L1, Hz.
    + intros Hz. now rewrite L2, Hz.
    + intros Hz. now rewrite L3, Hz.
    + intros Hz. now rewrite L4, Hz.
    + intros Hz. now rewrite L5, Hz.
    + intros Hz. now rewrite L6, Hz.
    + intros Hz. now rewrite L7, Hz.
    + intros Hz. now rewrite L8, Hz.
    + apply collect_params_keys.
Qed.

Lemma zero_fields_empty_query_witness :
  collect_params (zero_request "readall") = ∅
  /\ map (fun q => url.RawQuery (HTTPRequest.URL q))
       (performed (run E_ok (Do_of OpRoleCreate (zero_request "readall") None)).2)
     = [""].
Proof.
  destruct (zero_fields_empty_query E_ok OpRoleCreate (zero_request "readall") None
              eq_refl eq_refl eq_refl eq_refl eq_refl eq_refl eq_refl eq_refl)
    as (Hparams & _ & Hquery & _).
  split; [exact Hparams | exact Hquery].
Defined.

(** ** C8 *)

Section QueryValues.
Context `{Package} `{GoRuntime}.

Lemma set_all_other (visit : list (string * string)) (q : url.Values) (k : string) :
  k ∉ visit.*1 -> set_all visit q !! k = q !! k.
Proof.
  revert q. induction visit as [|[k' v'] visit IH]; intros q Hk; [reflexivity | ].
  simpl in Hk. apply not_elem_of_cons in Hk as [Hne Hk].
  change (set_all ((k', v') :: visit) q) with (set_all visit (url.Values_Set q k' v')).
  rewrite IH by exact Hk. unfold url.Values_Set. now apply lookup_insert_ne.
Qed.

Lemma set_all_lookup (visit : list (string * string)) (q : url.Values) (k v : string) :
  NoDup visit.*1 -> (k, v) ∈ visit -> set_all visit q !! k = Some [v].
Proof.
  revert q. induction visit as [|[k' v'] visit IH]; intros q Hnd Hin.
  - now apply elem_of_nil in Hin.
  - simpl in Hnd. apply NoDup_cons in Hnd as [Hfresh Hnd].
    change (set_all ((k', v') :: visit) q) with (set_all visit (url.Values_Set q k' v')).
    apply elem_of_cons in Hin as [Heq|Hin].
    + injection Heq as -> ->.
      rewrite set_all_other by exact Hfresh. apply lookup_insert_eq.
    + now apply IH.
Qed.

(** Every collected parameter is set in the query values, whatever the
    order in which [range] visits the parameters. *)
Lemma set_all_range (params : gmap string string) (q : url.Values) (k v : string) :
  params !! k = Some v -> set_all (range_ params) q !! k = Some [v].
Proof.
  intros Hk. apply set_all_lookup.
  - rewrite (range_perm _ params). apply NoDup_fst_map_to_list.
  - rewrite (range_perm _ params). now apply elem_of_map_to_list.
Qed.

Lemma prepare_create_URL r c req :
  HTTPRequest.URL (prepare_create r c req)
  = HTTPRequest.URL (encode_params (collect_params r) req).
Proof.
  unfold prepare_create.
  now rewrite bind_context_URL, merge_header_URL, set_content_type_URL.
Qed.

Lemma encode_params_nonempty (params : gmap string string) (req : HTTPRequest.t)
    (k v : string) :
  params !! k = Some v ->
  url.RawQuery (HTTPRequest.URL (encode_params params req))
  = Values_Encode (set_all (range_ params) (URL_Query (HTTPRequest.URL req))).
Proof.
  intros Hk. unfold encode_params.
  destruct (0 <? size params)%nat eqn:Hsz; [reflexivity | ].
  apply Nat.ltb_ge in Hsz.
  assert (Hz : size params = 0%nat) by lia.
  apply map_size_empty_iff in Hz. subst params. now rewrite lookup_empty in Hk.
Qed.

End QueryValues.

(** C8.  For the two create/update operations, when the master-timeout and
    the cluster-manager-timeout fields are both non-zero and the helper
    builds a request, the query string of the request that reaches the
    transport is the encoding of query values in which master_timeout and
    cluster_manager_timeout are both set, each to the single value the
    duration formatter gives for its own field. *)
Theorem both_manager_timeouts_sent `{Package} `{GoRuntime}
    (E : Collaborators) (op : Operation) (r : RequestConfig) (c : option Context)
    (req0 : HTTPRequest.t) :
  is_create op = true ->
  MasterTimeout r <> 0 ->
  ClusterManagerTimeout r <> 0 ->
  answer_newRequest E (method_of op) (prefix_of op +:+ Role r) (Body r) = inl req0 ->
  let q := set_all (range_ (collect_params r)) (URL_Query (HTTPRequest.URL req0)) in
  exists req,
    performed (run E (Do_of op r c)).2 = [req]
    /\ url.RawQuery (HTTPRequest.URL req) = Values_Encode q
    /\ q !! "master_timeout" = Some [formatDuration (MasterTimeout r)]
    /\ q !! "cluster_manager_timeout" = Some [formatDuration (ClusterManagerTimeout r)].
Proof.
  intros Hop Hmt Hcmt Hans q.
  destruct (collect_params_lookup r) as (L1 & L2 & _).
  apply Z.eqb_neq in Hmt, Hcmt. rewrite Hmt in L1. rewrite Hcmt in L2.
  exists (prepare op r c req0). split; [ | split; [ | split ] ].
  - rewrite run_Do_of. cbv zeta. unfold body_of. rewrite Hop, Hans.
    destruct (answer_Perform E _); reflexivity.
  - unfold prepare. rewrite Hop, prepare_create_URL.
    now apply encode_params_nonempty with (k := "master_timeout")
                                          (v := formatDuration (MasterTimeout r)).
  - now apply set_all_range.
  - now apply set_all_range.
Qed.

Lemma both_manager_timeouts_sent_witness :
  exists req,
    performed
      (run E_ok
         (Do_of OpRoleCreate
            (RoleCreate.WithClusterManagerTimeout (30 * Second)
               (RoleCreate.WithMasterTimeout (60 * Second) (zero_request "readall")))
            None)).2 = [req]
    /\ url.RawQuery (HTTPRequest.URL req) = "cluster_manager_timeout=30s&master_timeout=60s".
Proof.
  destruct (both_manager_timeouts_sent E_ok OpRoleCreate
              (RoleCreate.WithClusterManagerTimeout (30 * Second)
                 (RoleCreate.WithMasterTimeout (60 * Second) (zero_request "readall")))
              None
              {| HTTPRequest.Method := "PUT";
                 HTTPRequest.URL :=
                   {| url.Path := "/_plugins/_security/api/roles/readall";
                      url.RawQuery := "" |};
                 HTTPRequest.Header := ∅;
                 HTTPRequest.Body := None;
                 HTTPRequest.ctx := None |})
    as (req & Hreq & Hquery & _ & _).
  - reflexivity.
  - vm_compute. discriminate.
  - vm_compute. discriminate.
  - reflexivity.
  - exists req. split; [exact Hreq | ]. rewrite Hquery. vm_compute. reflexivity.
Defined.

(** ** C6 and C7 *)

Ltac trace_cases E :=
  rewrite endpoint_Do_of, run_Do_of; cbv zeta;
  destruct (answer_newRequest E _ _ _) as [?req0|?err];
  [ destruct (answer_Perform E _) as [?res|?err] | ]; simpl.

Ltac in_trace H :=
  repeat (first
    [ apply elem_of_nil in H; contradiction
    | apply elem_of_cons in H as [H|H]; [ try discriminate H | ] ]).

(** C6.  For each of the four endpoints, whenever the transport answers the
    call with an error, the endpoint returns that very error and a nil
    response, after that single transport call. *)
Theorem transport_error_returned `{Package} `{GoRuntime}
    (E : Collaborators) (op : Operation) (role : string)
    (o : list (RequestConfig -> RequestConfig)) (req : HTTPRequest.t) (e : error) :
  EvPerform req (inr e) ∈ (run E (endpoint op role o)).2 ->
  (run E (endpoint op role o)).1 = (None, Some e)
  /\ performed (run E (endpoint op role o)).2 = [req].
Proof.
  trace_cases E; intros Hin; in_trace Hin.
  injection Hin as -> ->. split; reflexivity.
Qed.

Lemma transport_error_returned_witness :
  let e := errorString "connection refused" in
  let E := {| answer_newRequest := newRequest; answer_Perform := transport_down e |} in
  (run E (endpoint OpRoleDelete "readall" [])).1 = (None, Some e).
Proof.
  cbv zeta.
  apply (transport_error_returned
           {| answer_newRequest := newRequest;
              answer_Perform := transport_down (errorString "connection refused") |}
           OpRoleDelete "readall" []
           {| HTTPRequest.Method := "DELETE";
              HTTPRequest.URL :=
                {| url.Path := "/_plugins/_security/api/roles/readall"; url.RawQuery := "" |};
              HTTPRequest.Header := ∅;
              HTTPRequest.Body := None;
              HTTPRequest.ctx := None |}
           (errorString "connection refused")).
  vm_compute. apply list_elem_of_In. right. left. reflexivity.
Defined.

(** C7.  For each of the four endpoints: when the helper answers with an
    error, the endpoint returns that error and a nil response and the run
    holds no other call (the transport is not invoked); and whenever the
    endpoint returns an error at all, the response is nil and the error is the
    one the helper, or else the transport, answered with. *)
Theorem construction_error_aborts `{Package} `{GoRuntime}
    (E : Collaborators) (op : Operation) (role : string)
    (o : list (RequestConfig -> RequestConfig)) :
  (forall (m p : string) (b : option Reader) (e : error),
     EvNewRequest m p b (inr e) ∈ (run E (endpoint op role o)).2 ->
     run E (endpoint op role o) = ((None, Some e), [EvNewRequest m p b (inr e)])
     /\ performed (run E (endpoint op role o)).2 = [])
  /\ (forall e : error,
        (run E (endpoint op role o)).1.2 = Some e ->
        (run E (endpoint op role o)).1.1 = None
        /\ ((exists m p b, (run E (endpoint op role o)).2 = [EvNewRequest m p b (inr e)])
            \/ (exists m p b req0 req,
                  (run E (endpoint op role o)).2
                  = [EvNewRequest m p b (inl req0); EvPerform req (inr e)]))).
Proof.
  split.
  - intros m p b e. trace_cases E; intros Hin; in_trace Hin.
    injection Hin as -> -> -> ->. split; reflexivity.
  - intros e. trace_cases E; intros He; try discriminate He;
      injection He as ->; (split; [reflexivity | ]).
    + right. eauto 6.
    + left. eauto.
Qed.

Lemma construction_error_aborts_witness :
  let e := errorString "invalid method" in
  let E := {| answer_newRequest := newRequest_failing e; answer_Perform := transport_ok |} in
  run E (endpoint OpRoleCreate "readall" [])
  = ((None, Some e),
     [EvNewRequest "PUT" "/_plugins/_security/api/roles/readall" None (inr e)])
  /\ (run E (endpoint OpRoleCreate "readall" [])).1.1 = None.
Proof.
  cbv zeta.
  destruct (construction_error_aborts
              {| answer_newRequest := newRequest_failing (errorString "invalid method");
                 answer_Perform := transport_ok |}
              OpRoleCreate "readall" []) as [Habort Honly].
  split.
  - apply Habort. vm_compute. apply list_elem_of_In. left. reflexivity.
  - apply (Honly (errorString "invalid method")). reflexivity.
Defined.

(** ** C9 *)

Section Accumulate.
Context `{GoRuntime}.

(** A map with one entry leaves [range] no choice. *)
Lemma range_singleton {V : Type} (k : string) (v : V) :
  range_ ({[ k := v ]} : gmap string V) = [(k, v)].
Proof.
  apply Permutation_singleton_r.
  rewrite (range_perm V). now rewrite map_to_list_singleton.
Qed.

Lemma Header_Add_lookup (hd : http.Header) (k v : string) :
  http.Header_Add hd k v !! textproto.CanonicalMIMEHeaderKey k
  = Some (default [] (hd !! textproto.CanonicalMIMEHeaderKey k) ++ [v]).
Proof. unfold http.Header_Add. apply lookup_insert_eq. Qed.

Lemma WithHeader_singleton (k v : string) (r : RequestConfig) :
  Header (Options.WithHeader {[ k := v ]} r)
  = Some (http.Header_Add (Options.made_Header r) k v).
Proof. unfold Options.WithHeader. simpl. now rewrite range_singleton. Qed.

End Accumulate.

(** C9.  On a configuration whose header set is empty (nil, or allocated
    without entries), [WithHeader] with X: 1 followed by [WithHeader] with
    X: 2 leaves the header set X: [1, 2], the values in the order of
    application; and a create/update [Do] then hands both values on in that
    order, after whatever the helper's request already holds under X. *)
Theorem with_header_accumulates `{Package} `{GoRuntime} (r : RequestConfig) :
  Header r = None \/ Header r = Some ∅ ->
  let r' := RoleCreate.WithHeader {[ "X" := "2" ]} (RoleCreate.WithHeader {[ "X" := "1" ]} r) in
  Header r' = Some {[ "X" := ["1"; "2"] ]}
  /\ forall req0 : HTTPRequest.t,
       HTTPRequest.Header (merge_header r' req0) !! "X"
       = Some (default [] (HTTPRequest.Header req0 !! "X") ++ ["1"; "2"]).
Proof.
  intros Hempty r'.
  assert (Hr' : Header r' = Some {[ "X" := ["1"; "2"] ]}).
  { unfold r'. rewrite WithHeader_singleton. f_equal.
    unfold Options.made_Header. rewrite WithHeader_singleton.
    assert (Hmade : Options.made_Header r = ∅)
      by (unfold Options.made_Header; destruct Hempty as [-> | ->]; reflexivity).
    rewrite Hmade. unfold http.Header_Add.
    change (textproto.CanonicalMIMEHeaderKey "X") with "X".
    rewrite lookup_insert_eq, lookup_empty. simpl.
    rewrite insert_insert_eq. reflexivity. }
  split; [exact Hr' | ].
  intros req0. unfold merge_header. rewrite Hr'.
  rewrite map_size_singleton. simpl.
  destruct (size (HTTPRequest.Header req0) =? 0)%nat eqn:Hz; simpl.
  - apply Nat.eqb_eq, map_size_empty_iff in Hz. rewrite Hz, lookup_empty. simpl.
    apply lookup_singleton_eq.
  - rewrite range_singleton. unfold add_each. simpl.
    rewrite (Header_Add_lookup _ "X" "2").
    change (textproto.CanonicalMIMEHeaderKey "X") with "X".
    rewrite (Header_Add_lookup _ "X" "1").
    change (textproto.CanonicalMIMEHeaderKey "X") with "X".
    simpl. now rewrite <- app_assoc.
Qed.

Lemma with_header_accumulates_witness :
  Header (RoleCreate.WithHeader {[ "X" := "2" ]}
            (RoleCreate.WithHeader {[ "X" := "1" ]} (zero_request "readall")))
  = Some {[ "X" := ["1"; "2"] ]}.
Proof.
  apply (with_header_accumulates (zero_request "readall")).
  left. reflexivity.
Defined.

(** ** C10 *)

(** C10.  For the two delete operations, two configurations with the same
    role and the same context give the same [Do]: the helper is asked for a
    DELETE request on the role's path with a nil body, and the request that
    reaches the transport is the helper's with the context bound, its body
    and headers as the helper left them.  With the helper of the spec that is
    a request without body and without headers, whatever body, headers or
    opaque id the configuration holds. *)
Theorem delete_ignores_all_but_role_and_context `{Package} `{GoRuntime}
    (E : Collaborators) (op : Operation) (r1 r2 : RequestConfig) :
  is_create op = false ->
  Role r1 = Role r2 ->
  ctx r1 = ctx r2 ->
  Do_of op r1 (ctx r1) = Do_of op r2 (ctx r2)
  /\ (run E (Do_of op r2 (ctx r2))).2
     = (let path := prefix_of op +:+ Role r1 in
        let ans := answer_newRequest E "DELETE" path None in
        EvNewRequest "DELETE" path None ans ::
        match ans with
        | inl req0 =>
            [EvPerform (bind_context (ctx r1) req0)
               (answer_Perform E (bind_context (ctx r1) req0))]
        | inr _ => []
        end)
  /\ (forall req0 : HTTPRequest.t,
        HTTPRequest.Body (bind_context (ctx r1) req0) = HTTPRequest.Body req0
        /\ HTTPRequest.Header (bind_context (ctx r1) req0) = HTTPRequest.Header req0)
  /\ performed
       (run {| answer_newRequest := newRequest; answer_Perform := answer_Perform E |}
          (Do_of op r2 (ctx r2))).2
     = [ {| HTTPRequest.Method := "DELETE";
            HTTPRequest.URL := {| url.Path := prefix_of op +:+ Role r1; url.RawQuery := "" |};
            HTTPRequest.Header := ∅;
            HTTPRequest.Body := None;
            HTTPRequest.ctx := ctx r1 |} ].
Proof.
  intros Hop Hrole Hctx.
  assert (Hsame : Do_of op r1 (ctx r1) = Do_of op r2 (ctx r2)).
  { destruct op; try discriminate Hop;
      unfold Do_of, RoleDeleteRequest.Do, RoleMappingDeleteRequest.Do, delete_Do;
      now rewrite Hrole, Hctx. }
  split; [exact Hsame | ]. rewrite <- Hsame.
  split; [ | split ].
  - rewrite run_Do_of. cbv zeta. unfold method_of, body_of, prepare. rewrite Hop.
    destruct (answer_newRequest E _ _ _) as [req0|err]; [ | reflexivity ].
    destruct (answer_Perform E _); reflexivity.
  - intros req0. now rewrite bind_context_Body, bind_context_Header.
  - rewrite run_Do_of. cbv zeta. unfold method_of, body_of, prepare. rewrite Hop.
    cbn [answer_newRequest answer_Perform newRequest].
    destruct (answer_Perform E _); simpl; destruct (ctx r1); reflexivity.
Qed.

Lemma delete_ignores_all_but_role_and_context_witness :
  let r1 := zero_request "readall" in
  let r2 :=
    RoleMappingDelete.WithOpaqueID "trace-1"
      (RoleMappingDelete.WithBody (Some (mkReader [Byte.x7b; Byte.x7d]))
         (RoleMappingDelete.WithTimeout (5 * Second)
            (RoleMappingDelete.WithPretty (zero_request "readall")))) in
  Do_of OpRoleMappingDelete r1 (ctx r1) = Do_of OpRoleMappingDelete r2 (ctx r2)
  /\ performed (run E_ok (Do_of OpRoleMappingDelete r2 (ctx r2))).2
     = [ {| HTTPRequest.Method := "DELETE";
            HTTPRequest.URL :=
              {| url.Path := "/_plugins/_security/api/rolesmapping/readall";
                 url.RawQuery := "" |};
            HTTPRequest.Header := ∅;
            HTTPRequest.Body := None;
            HTTPRequest.ctx := None |} ].
Proof.
  cbv zeta.
  destruct (delete_ignores_all_but_role_and_context E_ok OpRoleMappingDelete
              (zero_request "readall")
              (RoleMappingDelete.WithOpaqueID "trace-1"
                 (RoleMappingDelete.WithBody (Some (mkReader [Byte.x7b; Byte.x7d]))
                    (RoleMappingDelete.WithTimeout (5 * Second)
                       (RoleMappingDelete.WithPretty (zero_request "readall")))))
              eq_refl eq_refl eq_refl) as (Hsame & _ & _ & Hreq).
  split; [exact Hsame | exact Hreq].
Defined.


(** * Further properties *)

(** ** Canonical header keys *)

Lemma all_bytes_complete (c : ascii) : c ∈ all_bytes.
Proof.
  unfold all_bytes. apply list_elem_of_In, in_map_iff.
  exists (nat_of_ascii c). split; [apply ascii_nat_embedding | ].
  apply in_seq. pose proof (nat_ascii_bounded c). lia.
Qed.

(** On a token byte the loop writes a token byte, which it would write
    again, and which is a dash exactly when a second pass would see one. *)
Lemma canonical_byte_stable (upper : bool) (c : ascii) :
  textproto.validHeaderFieldByte c = true ->
  textproto.validHeaderFieldByte (canonical_byte upper c) = true
  /\ canonical_byte upper (canonical_byte upper c) = canonical_byte upper c.
Proof.
  assert (Hall : forallb (fun c =>
            forallb (fun u =>
              implb (textproto.validHeaderFieldByte c)
                (textproto.validHeaderFieldByte (canonical_byte u c)
                 && Ascii.eqb (canonical_byte u (canonical_byte u c)) (canonical_byte u c)))
              [true; false]) all_bytes = true) by (vm_compute; reflexivity).
  rewrite forallb_forall in Hall. specialize (Hall c).
  rewrite <- list_elem_of_In in Hall. specialize (Hall (all_bytes_complete c)).
  rewrite forallb_forall in Hall. specialize (Hall upper).
  assert (Hu : In upper [true; false]) by (destruct upper; simpl; auto).
  specialize (Hall Hu). intros Hv. rewrite Hv in Hall. simpl in Hall.
  apply andb_prop in Hall as [H1 H2]. split; [exact H1 | ].
  now apply Ascii.eqb_eq.
Qed.

Lemma canonicalize_unfold (upper : bool) (c : ascii) (s : string) :
  textproto.canonicalize upper (String c s)
  = String (canonical_byte upper c)
      (textproto.canonicalize (Ascii.eqb (canonical_byte upper c) "-") s).
Proof. reflexivity. Qed.

Lemma canonicalize_stable (s : string) (upper : bool) :
  textproto.all_valid s = true ->
  textproto.all_valid (textproto.canonicalize upper s) = true
  /\ textproto.canonicalize upper (textproto.canonicalize upper s)
     = textproto.canonicalize upper s.
Proof.
  revert upper. induction s as [|c s IH]; intros upper Hs; [split; reflexivity | ].
  simpl in Hs. apply andb_prop in Hs as [Hc Hs].
  destruct (canonical_byte_stable upper c Hc) as [Hv Hi].
  destruct (IH (Ascii.eqb (canonical_byte upper c) "-") Hs) as [IHv IHi].
  rewrite !canonicalize_unfold. split.
  - simpl. now rewrite Hv, IHv.
  - rewrite Hi. now rewrite IHi.
Qed.

(** [CanonicalMIMEHeaderKey] is idempotent. *)
Lemma CanonicalMIMEHeaderKey_idempotent (s : string) :
  textproto.CanonicalMIMEHeaderKey (textproto.CanonicalMIMEHeaderKey s)
  = textproto.CanonicalMIMEHeaderKey s.
Proof.
  unfold textproto.CanonicalMIMEHeaderKey.
  destruct (textproto.all_valid s) eqn:Hs.
  - destruct (canonicalize_stable s true Hs) as [Hv Hi]. now rewrite Hv, Hi.
  - now rewrite Hs.
Qed.

Section CanonicalKeys.
Context `{GoRuntime}.

Lemma Header_Add_canonical (hd : http.Header) (k v : string) :
  canonical_keys hd -> canonical_keys (http.Header_Add hd k v).
Proof.
  intros Hhd. unfold http.Header_Add. apply map_Forall_insert_2; [ | exact Hhd ].
  apply CanonicalMIMEHeaderKey_idempotent.
Qed.

Lemma Header_Set_canonical (hd : http.Header) (k v : string) :
  canonical_keys hd -> canonical_keys (http.Header_Set hd k v).
Proof.
  intros Hhd. unfold http.Header_Set. apply map_Forall_insert_2; [ | exact Hhd ].
  apply CanonicalMIMEHeaderKey_idempotent.
Qed.

Lemma add_all_canonical (visit : list (string * string)) (hd : http.Header) :
  canonical_keys hd -> canonical_keys (Options.add_all visit hd).
Proof.
  revert hd. induction visit as [|[k v] visit IH]; intros hd Hhd; [exact Hhd | ].
  apply IH. now apply Header_Add_canonical.
Qed.

Lemma made_Header_canonical (r : RequestConfig) :
  canonical_header r -> canonical_keys (Options.made_Header r).
Proof.
  unfold canonical_header, Options.made_Header.
  destruct (Header r); [easy | intros _; apply map_Forall_empty].
Qed.

Lemma mutator_canonical (s : Setter) (r : RequestConfig) :
  canonical_header r -> canonical_header (mutator s r).
Proof.
  intros Hr. destruct s; try exact Hr; unfold canonical_header; simpl.
  - apply add_all_canonical. now apply made_Header_canonical.
  - apply Header_Set_canonical. now apply made_Header_canonical.
Qed.

End CanonicalKeys.

Lemma setters_keep_canonical `{GoRuntime} (ss : list Setter) (r : RequestConfig) :
  canonical_header r -> canonical_header (apply_options (map mutator ss) r).
Proof.
  revert r. induction ss as [|s ss IH]; intros r Hr; [exact Hr | ].
  change (apply_options (map mutator (s :: ss)) r)
    with (apply_options (map mutator ss) (mutator s r)).
  apply IH. now apply mutator_canonical.
Qed.

(** X1.  Whatever recognized options an endpoint call is given, in whatever
    order and with whatever header names, every key of the header set of the
    configuration it builds is in canonical MIME form. *)
Theorem recognized_options_canonical_keys `{GoRuntime}
    (role : string) (ss : list Setter) :
  canonical_header (apply_options (map mutator ss) (zero_request role)).
Proof. apply setters_keep_canonical. exact I. Qed.

(** ** The header merge of [Do], key by key *)

Section MergeClosedForm.
Context `{Package} `{GoRuntime}.

Lemma add_values_lookup_any (k key : string) (vv : list string) (hd : http.Header) :
  foldl (fun hd v => http.Header_Add hd k v) hd vv !! key
  = if decide (textproto.CanonicalMIMEHeaderKey k = key)
    then match vv with
         | [] => hd !! key
         | _ :: _ => Some (default [] (hd !! key) ++ vv)
         end
    else hd !! key.
Proof.
  revert hd. induction vv as [|v vv IH]; intros hd.
  - simpl. now destruct (decide _).
  - simpl. rewrite IH. destruct (decide _) as [Heq|Hne].
    + unfold http.Header_Add. rewrite Heq, lookup_insert_eq. simpl.
      destruct vv; [reflexivity | now rewrite <- app_assoc].
    + unfold http.Header_Add. now rewrite lookup_insert_ne.
Qed.

Lemma add_each_lookup_any (key : string) (visit : list (string * list string))
    (hd : http.Header) :
  add_each visit hd !! key
  = match caller_values key visit with
    | [] => hd !! key
    | _ :: _ => Some (default [] (hd !! key) ++ caller_values key visit)
    end.
Proof.
  revert hd. induction visit as [|[k vv] visit IH]; intros hd; [reflexivity | ].
  change (add_each ((k, vv) :: visit) hd)
    with (add_each visit (foldl (fun hd v => http.Header_Add hd k v) hd vv)).
  rewrite IH, add_values_lookup_any.
  change (caller_values key ((k, vv) :: visit))
    with ((if decide (textproto.CanonicalMIMEHeaderKey k = key) then vv else [])
          ++ caller_values key visit).
  destruct (decide _) as [Heq|Hne]; [ | reflexivity ].
  destruct vv as [|v vv]; [reflexivity | ].
  destruct (caller_values key visit) as [|w ws].
  - simpl. now rewrite app_nil_r.
  - simpl. now rewrite <- app_assoc.
Qed.

(** With canonical, pairwise different keys, the values a key receives are
    those listed under that very key. *)
Lemma caller_values_absent (key : string) (visit : list (string * list string)) :
  Forall (fun kvv => textproto.CanonicalMIMEHeaderKey kvv.1 = kvv.1) visit ->
  key ∉ visit.*1 -> caller_values key visit = [].
Proof.
  intros Hcanon Hkey. apply caller_values_none.
  rewrite Forall_forall in Hcanon |- *. intros [k vv] Hin.
  rewrite (Hcanon _ Hin). simpl. intros ->.
  apply Hkey. apply list_elem_of_fmap. now exists (key, vv).
Qed.

Lemma caller_values_present (key : string) (vv : list string)
    (visit : list (string * list string)) :
  Forall (fun kvv => textproto.CanonicalMIMEHeaderKey kvv.1 = kvv.1) visit ->
  NoDup visit.*1 -> (key, vv) ∈ visit -> caller_values key visit = vv.
Proof.
  induction visit as [|[k ww] visit IH]; intros Hcanon Hnd Hin.
  - now apply elem_of_nil in Hin.
  - apply Forall_cons in Hcanon as [Hk Hcanon].
    simpl in Hnd. apply NoDup_cons in Hnd as [Hfresh Hnd]. simpl in Hk.
    change (caller_values key ((k, ww) :: visit))
      with ((if decide (textproto.CanonicalMIMEHeaderKey k = key) then ww else [])
            ++ caller_values key visit).
    rewrite Hk. apply elem_of_cons in Hin as [Heq|Hin].
    + injection Heq as -> ->. rewrite decide_True by reflexivity.
      rewrite caller_values_absent by assumption. apply app_nil_r.
    + rewrite decide_False.
      * now apply IH.
      * intros ->. apply Hfresh. apply list_elem_of_fmap. now exists (key, vv).
Qed.

Lemma caller_values_range (h : http.Header) (key : string) :
  canonical_keys h -> caller_values key (range_ h) = default [] (h !! key).
Proof.
  intros Hh.
  assert (Hcanon : Forall (fun kvv => textproto.CanonicalMIMEHeaderKey kvv.1 = kvv.1)
                     (range_ h)).
  { apply Forall_forall. intros [k vv] Hin. simpl.
    rewrite (range_perm _ h) in Hin. apply elem_of_map_to_list in Hin.
    exact (Hh k vv Hin). }
  assert (Hnd : NoDup (range_ h).*1)
    by (rewrite (range_perm _ h); apply NoDup_fst_map_to_list).
  destruct (h !! key) as [vv|] eqn:Hkey; simpl.
  - apply caller_values_present; try assumption.
    rewrite (range_perm _ h). now apply elem_of_map_to_list.
  - apply caller_values_absent; [assumption | ].
    rewrite (range_perm _ h). intros Hin.
    apply list_elem_of_fmap in Hin as ([k vv] & -> & Hin).
    apply elem_of_map_to_list in Hin. simpl in Hkey. congruence.
Qed.

End MergeClosedForm.

Lemma merge_header_lookup `{Package} `{GoRuntime}
    (r : RequestConfig) (h : http.Header) (req : HTTPRequest.t) (k : string) :
  Header r = Some h ->
  canonical_keys h ->
  HTTPRequest.Header (merge_header r req) !! k
  = if (size (HTTPRequest.Header req) =? 0)%nat then h !! k
    else match h !! k with
         | Some (v :: vv) => Some (default [] (HTTPRequest.Header req !! k) ++ v :: vv)
         | _ => HTTPRequest.Header req !! k
         end.
Proof.
  intros Hh Hcanon. unfold merge_header. rewrite Hh.
  destruct (0 <? size h)%nat eqn:Hsz.
  - destruct (size (HTTPRequest.Header req) =? 0)%nat; [reflexivity | ].
    simpl. rewrite add_each_lookup_any, caller_values_range by exact Hcanon.
    destruct (h !! k) as [[|v vv]|]; reflexivity.
  - apply Nat.ltb_ge in Hsz. assert (Hz : size h = 0%nat) by lia.
    apply map_size_empty_iff in Hz. subst h. rewrite lookup_empty.
    destruct (size (HTTPRequest.Header req) =? 0)%nat eqn:Hreq; [ | reflexivity ].
    apply Nat.eqb_eq, map_size_empty_iff in Hreq. now rewrite Hreq, lookup_empty.
Qed.

(** X2.  When the keys of the configuration's header set are canonical, the
    merge of [Do] reads key by key: a request that had no header receives the
    caller's header set as it is; otherwise each key keeps the values the
    request already had, followed by the caller's values for that key, and a
    key the caller gives no value to is left as it was. *)
Theorem merge_header_by_key `{Package} `{GoRuntime}
    (r : RequestConfig) (h : http.Header) (req : HTTPRequest.t) (k : string) :
  Header r = Some h ->
  canonical_keys h ->
  HTTPRequest.Header (merge_header r req) !! k
  = if (size (HTTPRequest.Header req) =? 0)%nat then h !! k
    else match h !! k with
         | Some (v :: vv) => Some (default [] (HTTPRequest.Header req !! k) ++ v :: vv)
         | _ => HTTPRequest.Header req !! k
         end.
Proof. apply merge_header_lookup. Qed.

Lemma merge_header_by_key_witness :
  let r :=
    RoleCreate.WithOpaqueID "t-1"
      (RoleCreate.WithHeader {[ "accept" := "text/plain" ]} (zero_request "readall")) in
  let req :=
    {| HTTPRequest.Method := "PUT";
       HTTPRequest.URL := {| url.Path := "/"; url.RawQuery := "" |};
       HTTPRequest.Header := {[ "Accept" := ["application/json"] ]};
       HTTPRequest.Body := None;
       HTTPRequest.ctx := None |} in
  HTTPRequest.Header (merge_header r req) !! "Accept"
  = Some ["application/json"; "text/plain"].
Proof.
  cbv zeta.
  rewrite (merge_header_by_key _
             (http.Header_Set
                (Options.add_all [("accept", "text/plain")] ∅) "X-Opaque-Id" "t-1")
             _ "Accept").
  - vm_compute. reflexivity.
  - vm_compute. reflexivity.
  - apply Header_Set_canonical, add_all_canonical, map_Forall_empty.
Defined.

Section OrderIndependence.
Context `{Package}.

Lemma set_all_by_key `{GoRuntime} (params : gmap string string) (q : url.Values)
    (k : string) :
  set_all (range_ params) q !! k
  = match params !! k with
    | Some v => Some [v]
    | None => q !! k
    end.
Proof.
  destruct (params !! k) as [v|] eqn:Hk.
  - now apply set_all_range.
  - apply set_all_other. rewrite (range_perm _ params). intros Hin.
    apply list_elem_of_fmap in Hin as ([k' v'] & -> & Hin).
    apply elem_of_map_to_list in Hin. simpl in Hk. congruence.
Qed.

Lemma merge_header_order (R1 R2 : GoRuntime) (r : RequestConfig) (req : HTTPRequest.t) :
  canonical_header r ->
  @merge_header R1 r req = @merge_header R2 r req.
Proof.
  intros Hr. unfold canonical_header in Hr.
  destruct (Header r) as [h|] eqn:Hh; [ | unfold merge_header; now rewrite Hh ].
  assert (Hhd : HTTPRequest.Header (@merge_header R1 r req)
                = HTTPRequest.Header (@merge_header R2 r req)).
  { apply map_eq. intros k.
    now rewrite (@merge_header_lookup _ R1 r h), (@merge_header_lookup _ R2 r h). }
  unfold merge_header in *. rewrite Hh in *.
  destruct (0 <? size h)%nat; [ | reflexivity ].
  destruct (size (HTTPRequest.Header req) =? 0)%nat; [reflexivity | ].
  simpl in Hhd. unfold HTTPRequest.set_Header. now rewrite Hhd.
Qed.

Lemma encode_params_order (R1 R2 : GoRuntime) (params : gmap string string)
    (req : HTTPRequest.t) :
  @URL_Query R1 = @URL_Query R2 ->
  @Values_Encode R1 = @Values_Encode R2 ->
  @encode_params R1 params req = @encode_params R2 params req.
Proof.
  intros Hq He. unfold encode_params. destruct (0 <? size params)%nat; [ | reflexivity ].
  rewrite Hq, He. do 2 f_equal. apply map_eq. intros k.
  now rewrite (@set_all_by_key R1), (@set_all_by_key R2).
Qed.

End OrderIndependence.

(** X3.  The order in which [range] visits the parameter map and the header
    map has no effect on a [Do] whose configuration has canonical header
    keys: for each of the four operations, two runtimes that differ in that
    order only give the same result and the same calls. *)
Theorem do_independent_of_range_order `{Package} (R1 R2 : GoRuntime)
    (E : Collaborators) (op : Operation) (r : RequestConfig) (c : option Context) :
  @URL_Query R1 = @URL_Query R2 ->
  @Values_Encode R1 = @Values_Encode R2 ->
  canonical_header r ->
  run E (@Do_of _ R1 op r c) = run E (@Do_of _ R2 op r c).
Proof.
  intros Hq He Hr.
  assert (Hprep : forall req0, @prepare _ R1 op r c req0 = @prepare _ R2 op r c req0).
  { intros req0. unfold prepare, prepare_create. destruct (is_create op); [ | reflexivity ].
    rewrite (encode_params_order R1 R2) by assumption.
    now rewrite (merge_header_order R1 R2) by assumption. }
  rewrite !run_Do_of. cbv zeta.
  destruct (answer_newRequest E _ _ _) as [req0|err]; [ | reflexivity ].
  now rewrite Hprep.
Qed.

Lemma do_independent_of_range_order_witness :
  let r :=
    RoleCreate.WithPretty
      (RoleCreate.WithTimeout (5 * Second)
         (RoleCreate.WithOpaqueID "t-1"
            (RoleCreate.WithHeader {[ "accept" := "text/plain" ]}
               (RoleCreate.WithBody (Some (mkReader [])) (zero_request "readall"))))) in
  run E_ok (@Do_of _ example_runtime OpRoleCreate r None)
  = run E_ok (@Do_of _ (reversed example_runtime) OpRoleCreate r None).
Proof.
  cbv zeta.
  apply (do_independent_of_range_order example_runtime (reversed example_runtime)).
  - reflexivity.
  - reflexivity.
  - apply (setters_keep_canonical
             [SetBody (Some (mkReader [])); SetHeader {[ "accept" := "text/plain" ]};
              SetOpaqueID "t-1"; SetTimeout (5 * Second); SetPretty]
             (zero_request "readall")).
    exact I.
Defined.

(** ** [WithHeader] and the order of [range] *)

Lemma Header_Add_swap (hd : http.Header) (k1 v1 k2 v2 : string) :
  textproto.CanonicalMIMEHeaderKey k1 <> textproto.CanonicalMIMEHeaderKey k2 ->
  http.Header_Add (http.Header_Add hd k1 v1) k2 v2
  = http.Header_Add (http.Header_Add hd k2 v2) k1 v1.
Proof.
  intros Hne. unfold http.Header_Add.
  rewrite !lookup_insert_ne by congruence.
  now apply insert_insert_ne.
Qed.

Lemma add_all_permutation (visit1 visit2 : list (string * string)) :
  visit1 ≡ₚ visit2 ->
  NoDup (canonical_forms visit1) ->
  forall hd, Options.add_all visit1 hd = Options.add_all visit2 hd.
Proof.
  induction 1 as [|[k v] l1 l2 Hperm IH|[k1 v1] [k2 v2] l|l1 l2 l3 Hp12 IH12 Hp23 IH23];
    intros Hnd hd.
  - reflexivity.
  - simpl in Hnd. apply NoDup_cons in Hnd as [_ Hnd].
    change (Options.add_all l1 (http.Header_Add hd k v)
            = Options.add_all l2 (http.Header_Add hd k v)).
    now apply IH.
  - simpl in Hnd. apply NoDup_cons in Hnd as [Hfresh _].
    change (Options.add_all l (http.Header_Add (http.Header_Add hd k2 v2) k1 v1)
            = Options.add_all l (http.Header_Add (http.Header_Add hd k1 v1) k2 v2)).
    rewrite Header_Add_swap; [reflexivity | ].
    intros Heq. apply Hfresh. simpl. rewrite Heq. apply elem_of_cons. now left.
  - rewrite IH12 by exact Hnd. apply IH23.
    unfold canonical_forms in *. now rewrite <- Hp12.
Qed.

(** X4.  [WithHeader] gives the same configuration whatever the order in
    which [range] visits its argument, provided no two keys of the argument
    have the same canonical form. *)
Theorem with_header_order_independent (R1 R2 : GoRuntime)
    (h : gmap string string) (r : RequestConfig) :
  NoDup (canonical_forms (map_to_list h)) ->
  @Options.WithHeader R1 h r = @Options.WithHeader R2 h r.
Proof.
  intros Hnd. unfold Options.WithHeader. do 2 f_equal.
  apply add_all_permutation.
  - rewrite (@range_perm R1), (@range_perm R2). reflexivity.
  - unfold canonical_forms in *. now rewrite (@range_perm R1).
Qed.

Lemma with_header_order_independent_witness :
  @Options.WithHeader example_runtime {[ "accept" := "a"; "x-trace" := "b" ]}
    (zero_request "readall")
  = @Options.WithHeader (reversed example_runtime) {[ "accept" := "a"; "x-trace" := "b" ]}
      (zero_request "readall").
Proof.
  apply with_header_order_independent.
  vm_compute. apply NoDup_cons. split.
  - intros Hin. apply list_elem_of_In in Hin. simpl in Hin.
    destruct Hin as [Heq | []]. discriminate Heq.
  - apply NoDup_singleton.
Defined.

(** X5.  When two different keys of its argument have the same canonical
    form and carry different values, the configuration [WithHeader] builds
    depends on the order in which [range] visits the argument: visiting in
    the opposite order gives a different header set. *)
Theorem with_header_order_dependent (R : GoRuntime)
    (k1 k2 v1 v2 : string) (r : RequestConfig) :
  k1 <> k2 ->
  textproto.CanonicalMIMEHeaderKey k1 = textproto.CanonicalMIMEHeaderKey k2 ->
  v1 <> v2 ->
  @Options.WithHeader R {[ k1 := v1; k2 := v2 ]} r
  <> @Options.WithHeader (reversed R) {[ k1 := v1; k2 := v2 ]} r.
Proof.
  intros Hk Hcanon Hv Heq.
  apply (f_equal Header) in Heq. unfold Options.WithHeader in Heq. simpl in Heq.
  injection Heq as Heq.
  apply (f_equal (fun hd => hd !! textproto.CanonicalMIMEHeaderKey k1)) in Heq.
  assert (Hperm : @range_ R _ ({[ k1 := v1; k2 := v2 ]} : gmap string string)
                  ≡ₚ [(k1, v1); (k2, v2)]).
  { rewrite (@range_perm R), map_to_list_insert, map_to_list_singleton; [reflexivity | ].
    now apply lookup_singleton_ne. }
  symmetry in Hperm. apply Permutation_length_2_inv in Hperm.
  set (K := textproto.CanonicalMIMEHeaderKey k1) in *.
  assert (Hadd : forall hd a b,
            http.Header_Add (http.Header_Add hd k1 a) k2 b !! K
            = Some ((default [] (hd !! K) ++ [a]) ++ [b])).
  { intros hd a b. unfold http.Header_Add. fold K. rewrite <- Hcanon. fold K.
    now rewrite !lookup_insert_eq. }
  assert (Hadd' : forall hd a b,
            http.Header_Add (http.Header_Add hd k2 a) k1 b !! K
            = Some ((default [] (hd !! K) ++ [a]) ++ [b])).
  { intros hd a b. unfold http.Header_Add. fold K. rewrite <- Hcanon. fold K.
    now rewrite !lookup_insert_eq. }
  destruct Hperm as [Hr | Hr]; rewrite Hr in Heq; simpl in Heq;
    rewrite Hadd, Hadd' in Heq; injection Heq as Heq;
    rewrite <- !app_assoc in Heq; apply app_inv_head in Heq;
    injection Heq as Heq _; congruence.
Qed.

Lemma with_header_order_dependent_witness :
  @Options.WithHeader example_runtime {[ "x-trace" := "1"; "X-Trace" := "2" ]}
    (zero_request "readall")
  <> @Options.WithHeader (reversed example_runtime) {[ "x-trace" := "1"; "X-Trace" := "2" ]}
       (zero_request "readall").
Proof.
  apply with_header_order_dependent.
  - discriminate.
  - reflexivity.
  - discriminate.
Defined.

(** ** The request that reaches the transport, and the response returned *)

Section Prepared.
Context `{Package} `{GoRuntime}.

Lemma bind_context_ctx (c : option Context) (req : HTTPRequest.t) :
  HTTPRequest.ctx (bind_context c req)
  = match c with
    | Some c' => Some c'
    | None => HTTPRequest.ctx req
    end.
Proof. now destruct c. Qed.

Lemma prepare_ctx op r c req :
  HTTPRequest.ctx (prepare op r c req)
  = match c with
    | Some c' => Some c'
    | None => HTTPRequest.ctx req
    end.
Proof.
  unfold prepare, prepare_create. destruct (is_create op); rewrite bind_context_ctx;
    [ | reflexivity ].
  destruct c; [reflexivity | ].
  unfold merge_header, set_content_type, encode_params.
  repeat (case_match; simpl); reflexivity.
Qed.

Lemma prepare_keeps_Method op r c req :
  HTTPRequest.Method (prepare op r c req) = HTTPRequest.Method req.
Proof.
  unfold prepare, prepare_create, bind_context, merge_header, set_content_type, encode_params.
  repeat (case_match; simpl); reflexivity.
Qed.

(** The requests a run hands to the transport: the prepared request, once,
    when the helper built one. *)
Lemma performed_Do_of (E : Collaborators) op r c :
  performed (run E (Do_of op r c)).2
  = match answer_newRequest E (method_of op) (prefix_of op +:+ Role r) (body_of op r) with
    | inl req0 => [prepare op r c req0]
    | inr _ => []
    end.
Proof.
  rewrite run_Do_of. cbv zeta.
  destruct (answer_newRequest E _ _ _) as [req0|err]; [ | reflexivity ].
  destruct (answer_Perform E _); reflexivity.
Qed.

End Prepared.

(** X6.  For each of the four endpoints, whenever the transport answers with
    a response, the endpoint returns a nil error and a response holding that
    response's status code, body and header set, whatever the status code
    is. *)
Theorem transport_response_wrapped `{Package} `{GoRuntime}
    (E : Collaborators) (op : Operation) (role : string)
    (o : list (RequestConfig -> RequestConfig)) (req : HTTPRequest.t)
    (res : HTTPResponse.t) :
  EvPerform req (inl res) ∈ (run E (endpoint op role o)).2 ->
  (run E (endpoint op role o)).1
  = (Some {| Response.StatusCode := HTTPResponse.StatusCode res;
             Response.Body := HTTPResponse.Body res;
             Response.Header := HTTPResponse.Header res |},
     None).
Proof.
  trace_cases E; intros Hin; in_trace Hin.
  injection Hin as -> ->. reflexivity.
Qed.

Lemma transport_response_wrapped_witness :
  let E := {| answer_newRequest := newRequest; answer_Perform := transport_not_found |} in
  (run E (endpoint OpRoleMappingDelete "readall" [])).1
  = (Some {| Response.StatusCode := 404;
             Response.Body := mkReader [Byte.x7b; Byte.x7d];
             Response.Header := {[ "Content-Type" := ["application/json"] ]} |},
     None).
Proof.
  cbv zeta.
  assert (Hin : EvPerform
                  {| HTTPRequest.Method := "DELETE";
                     HTTPRequest.URL :=
                       {| url.Path := "/_plugins/_security/api/rolesmapping/readall";
                          url.RawQuery := "" |};
                     HTTPRequest.Header := ∅;
                     HTTPRequest.Body := None;
                     HTTPRequest.ctx := None |}
                  (inl {| HTTPResponse.StatusCode := 404;
                          HTTPResponse.Header := {[ "Content-Type" := ["application/json"] ]};
                          HTTPResponse.Body := mkReader [Byte.x7b; Byte.x7d] |})
                ∈ (run {| answer_newRequest := newRequest;
                          answer_Perform := transport_not_found |}
                     (endpoint OpRoleMappingDelete "readall" [])).2).
  { vm_compute. apply list_elem_of_In. right. left. reflexivity. }
  exact (transport_response_wrapped _ _ _ _ _ _ Hin).
Defined.

(** X7.  For each of the four endpoints, the request that reaches the
    transport carries the context of the configuration the options built
    when that context is not nil, and keeps the context of the helper's
    request when it is; its method, path and body are always those of the
    helper's request. *)
Theorem request_context_and_identity `{Package} `{GoRuntime}
    (E : Collaborators) (op : Operation) (role : string)
    (o : list (RequestConfig -> RequestConfig)) (req : HTTPRequest.t) :
  req ∈ performed (run E (endpoint op role o)).2 ->
  let r := apply_options o (zero_request role) in
  exists req0,
    answer_newRequest E (method_of op) (prefix_of op +:+ Role r) (body_of op r) = inl req0
    /\ HTTPRequest.ctx req
       = match ctx r with
         | Some c => Some c
         | None => HTTPRequest.ctx req0
         end
    /\ HTTPRequest.Method req = HTTPRequest.Method req0
    /\ url.Path (HTTPRequest.URL req) = url.Path (HTTPRequest.URL req0)
    /\ HTTPRequest.Body req = HTTPRequest.Body req0.
Proof.
  intros Hin r. rewrite endpoint_Do_of, performed_Do_of in Hin. fold r in Hin.
  destruct (answer_newRequest E _ _ _) as [req0|err].
  - apply list_elem_of_singleton in Hin. subst req. exists req0.
    split; [reflexivity | ].
    now rewrite prepare_ctx, prepare_keeps_Method, prepare_Path, prepare_Body.
  - now apply elem_of_nil in Hin.
Qed.

Lemma request_context_and_identity_witness :
  let req :=
    {| HTTPRequest.Method := "DELETE";
       HTTPRequest.URL :=
         {| url.Path := "/_plugins/_security/api/roles/readall"; url.RawQuery := "" |};
       HTTPRequest.Header := ∅;
       HTTPRequest.Body := None;
       HTTPRequest.ctx := Some (mkContext 7) |} in
  req ∈ performed
          (run E_ok (endpoint OpRoleDelete "readall"
                       [RoleDelete.WithContext (Some (mkContext 7))])).2
  /\ exists req0,
       newRequest "DELETE" "/_plugins/_security/api/roles/readall" None = inl req0
       /\ HTTPRequest.ctx req = Some (mkContext 7)
       /\ HTTPRequest.Method req = HTTPRequest.Method req0.
Proof.
  cbv zeta.
  assert (Hin : {| HTTPRequest.Method := "DELETE";
                   HTTPRequest.URL :=
                     {| url.Path := "/_plugins/_security/api/roles/readall";
                        url.RawQuery := "" |};
                   HTTPRequest.Header := ∅;
                   HTTPRequest.Body := None;
                   HTTPRequest.ctx := Some (mkContext 7) |}
                ∈ performed
                    (run E_ok (endpoint OpRoleDelete "readall"
                                 [RoleDelete.WithContext (Some (mkContext 7))])).2).
  { vm_compute. apply list_elem_of_In. left. reflexivity. }
  split; [exact Hin | ].
  destruct (request_context_and_identity E_ok OpRoleDelete "readall" _ _ Hin)
    as (req0 & Hreq0 & Hctx & Hmethod & _).
  exists req0. split; [exact Hreq0 | split; [exact Hctx | exact Hmethod]].
Defined.

(** ** How the recognized options compose *)

(** X8.  Two recognized options that assign different fields can be passed
    in either order: the configuration is the same. *)
Theorem setters_of_different_fields_commute `{GoRuntime}
    (a b : Setter) (r : RequestConfig) :
  field_written a <> field_written b ->
  mutator a (mutator b r) = mutator b (mutator a r).
Proof.
  intros Hab. destruct a, b; simpl in Hab; try congruence; reflexivity.
Qed.

Lemma setters_of_different_fields_commute_witness :
  mutator (SetOpaqueID "t-1") (mutator (SetTimeout Second) (zero_request "readall"))
  = mutator (SetTimeout Second) (mutator (SetOpaqueID "t-1") (zero_request "readall")).
Proof.
  apply setters_of_different_fields_commute. discriminate.
Defined.

Lemma mutator_Role `{GoRuntime} (s : Setter) (r : RequestConfig) :
  Role (mutator s r) = Role r.
Proof. destruct s; reflexivity. Qed.

Lemma setters_Role `{GoRuntime} (ss : list Setter) (r : RequestConfig) :
  Role (apply_options (map mutator ss) r) = Role r.
Proof.
  revert r. induction ss as [|s ss IH]; intros r; [reflexivity | ].
  change (apply_options (map mutator (s :: ss)) r)
    with (apply_options (map mutator ss) (mutator s r)).
  now rewrite IH, mutator_Role.
Qed.

(** X9.  No recognized option changes the role: whatever options an endpoint
    call is given, its first call asks the helper for the operation's method
    on the operation's prefix followed by the role the call was given. *)
Theorem endpoint_path_whatever_the_options `{Package} `{GoRuntime}
    (E : Collaborators) (op : Operation) (role : string) (ss : list Setter) :
  Role (apply_options (map mutator ss) (zero_request role)) = role
  /\ exists body ans rest,
       (run E (endpoint op role (map mutator ss))).2
       = EvNewRequest (method_of op) (prefix_of op +:+ role) body ans :: rest.
Proof.
  assert (Hrole : Role (apply_options (map mutator ss) (zero_request role)) = role)
    by apply setters_Role.
  split; [exact Hrole | ].
  rewrite endpoint_Do_of, run_Do_of. cbv zeta. rewrite Hrole.
  destruct (answer_newRequest E _ _ _) as [req0|err]; [ | eauto ].
  destruct (answer_Perform E _); eauto.
Qed.

(** X10.  A flag of the configuration is set after a sequence of recognized
    options exactly when it was set before or its option is in the sequence:
    no recognized option clears pretty, human or error-trace. *)
Theorem flags_only_switch_on `{GoRuntime} (ss : list Setter) (r : RequestConfig) :
  let r' := apply_options (map mutator ss) r in
  Pretty r' = Pretty r || existsb (fun s => match s with SetPretty => true | _ => false end) ss
  /\ Human r' = Human r || existsb (fun s => match s with SetHuman => true | _ => false end) ss
  /\ ErrorTrace r'
     = ErrorTrace r || existsb (fun s => match s with SetErrorTrace => true | _ => false end) ss.
Proof.
  revert r. induction ss as [|s ss IH]; intros r.
  - cbv zeta. simpl. now rewrite !orb_false_r.
  - cbv zeta in *.
    change (apply_options (map mutator (s :: ss)) r)
      with (apply_options (map mutator ss) (mutator s r)).
    destruct (IH (mutator s r)) as (Hp & Hh & He). rewrite Hp, Hh, He.
    destruct s; simpl; repeat split; rewrite ?orb_true_r, ?orb_true_l; try reflexivity;
      now destruct (Pretty r), (Human r), (ErrorTrace r).
Qed.

(** ** The query string of a create/update request *)

(** X11.  For the two create/update operations, as soon as one parameter is
    collected, the query string of the request that reaches the transport is
    the encoding of query values that hold, for every key, the single
    collected value when the key was collected, and otherwise whatever the
    query of the helper's request held under that key. *)
Theorem query_values_by_key `{Package} `{GoRuntime}
    (E : Collaborators) (op : Operation) (r : RequestConfig) (c : option Context)
    (req0 : HTTPRequest.t) (k0 v0 : string) :
  is_create op = true ->
  collect_params r !! k0 = Some v0 ->
  answer_newRequest E (method_of op) (prefix_of op +:+ Role r) (Body r) = inl req0 ->
  exists q,
    map (fun req => url.RawQuery (HTTPRequest.URL req))
      (performed (run E (Do_of op r c)).2) = [Values_Encode q]
    /\ forall k,
         q !! k = match collect_params r !! k with
                  | Some v => Some [v]
                  | None => URL_Query (HTTPRequest.URL req0) !! k
                  end.
Proof.
  intros Hop Hk0 Hans.
  exists (set_all (range_ (collect_params r)) (URL_Query (HTTPRequest.URL req0))).
  split.
  - rewrite performed_Do_of. unfold body_of. rewrite Hop, Hans. simpl.
    unfold prepare. rewrite Hop, prepare_create_URL.
    now rewrite (encode_params_nonempty _ _ k0 v0).
  - intros k. apply set_all_by_key.
Qed.

Lemma query_values_by_key_witness :
  exists q,
    map (fun req => url.RawQuery (HTTPRequest.URL req))
      (performed
         (run E_ok
            (Do_of OpRoleMappingCreate
               (RoleMappingCreate.WithFilterPath ["a"; "b"]
                  (RoleMappingCreate.WithWaitForActiveShards "all" (zero_request "readall")))
               None)).2)
    = [Values_Encode q]
    /\ q !! "filter_path" = Some ["a,b"]
    /\ q !! "wait_for_active_shards" = Some ["all"]
    /\ q !! "timeout" = None.
Proof.
  destruct (query_values_by_key E_ok OpRoleMappingCreate
              (RoleMappingCreate.WithFilterPath ["a"; "b"]
                 (RoleMappingCreate.WithWaitForActiveShards "all" (zero_request "readall")))
              None
              {| HTTPRequest.Method := "PUT";
                 HTTPRequest.URL :=
                   {| url.Path := "/_plugins/_security/api/rolesmapping/readall";
                      url.RawQuery := "" |};
                 HTTPRequest.Header := ∅;
                 HTTPRequest.Body := None;
                 HTTPRequest.ctx := None |}
              "filter_path" "a,b" eq_refl eq_refl eq_refl) as (q & Hq & Hkeys).
  exists q. split; [exact Hq | ].
  rewrite !Hkeys. repeat split; reflexivity.
Defined.

(** ** Plain fields: the last option decides *)

Lemma mutator_Timeout `{GoRuntime} (s : Setter) (r : RequestConfig) :
  field_written s <> F_Timeout -> Timeout (mutator s r) = Timeout r.
Proof. destruct s; simpl; intros Hs; congruence || reflexivity. Qed.

Lemma setters_Timeout `{GoRuntime} (ss : list Setter) (r : RequestConfig) :
  Forall (fun s => field_written s <> F_Timeout) ss ->
  Timeout (apply_options (map mutator ss) r) = Timeout r.
Proof.
  revert r. induction ss as [|s ss IH]; intros r Hss; [reflexivity | ].
  apply Forall_cons in Hss as [Hs Hss].
  change (apply_options (map mutator (s :: ss)) r)
    with (apply_options (map mutator ss) (mutator s r)).
  now rewrite IH, mutator_Timeout.
Qed.

(** X12.  In any sequence of recognized options, the last [WithTimeout]
    decides the timeout parameter: the parameter is the formatted duration of
    that option, and it is absent when that duration is zero, whatever
    earlier options asked for. *)
Theorem last_timeout_option_decides `{Package} `{GoRuntime}
    (before after : list Setter) (v : Duration) (r : RequestConfig) :
  Forall (fun s => field_written s <> F_Timeout) after ->
  let r' := apply_options (map mutator (before ++ SetTimeout v :: after)) r in
  Timeout r' = v
  /\ collect_params r' !! "timeout" = (if v =? 0 then None else Some (formatDuration v)).
Proof.
  intros Hafter r'.
  assert (Hv : Timeout r' = v).
  { unfold r'. rewrite map_app, apply_options_app.
    change (map mutator (SetTimeout v :: after))
      with (mutator (SetTimeout v) :: map mutator after).
    rewrite apply_options_cons. now rewrite setters_Timeout. }
  split; [exact Hv | ].
  destruct (collect_params_lookup r') as (_ & _ & Ht & _). now rewrite Ht, Hv.
Qed.

Lemma last_timeout_option_decides_witness :
  collect_params
    (apply_options
       (map mutator ([SetTimeout (5 * Second)] ++ SetTimeout 0 :: [SetPretty]))
       (zero_request "readall")) !! "timeout" = None.
Proof.
  apply (last_timeout_option_decides [SetTimeout (5 * Second)] [SetPretty] 0
           (zero_request "readall")).
  repeat constructor; discriminate.
Defined.

(** ** The opaque id and the headers *)

(** X13.  [WithOpaqueID] replaces whatever the header set holds under
    X-Opaque-Id, also what an earlier [WithHeader] put there under another
    spelling of the key, and leaves the other keys alone; a later
    [WithHeader] under any spelling of the key appends to the opaque id
    instead of replacing it. *)
Theorem opaque_id_replaces_header_appends `{GoRuntime}
    (s t name : string) (r : RequestConfig) :
  textproto.CanonicalMIMEHeaderKey name = "X-Opaque-Id" ->
  Header (Options.WithOpaqueID s (Options.WithHeader {[ name := t ]} r))
    ≫= lookup "X-Opaque-Id" = Some [s]
  /\ Header (Options.WithHeader {[ name := t ]} (Options.WithOpaqueID s r))
       ≫= lookup "X-Opaque-Id" = Some [s; t]
  /\ forall k, k <> "X-Opaque-Id" ->
       Header (Options.WithOpaqueID s r) ≫= lookup k = Options.made_Header r !! k.
Proof.
  intros Hname.
  assert (Hset : forall r' k,
            Header (Options.WithOpaqueID s r') ≫= lookup k
            = if decide (k = "X-Opaque-Id") then Some [s] else Options.made_Header r' !! k).
  { intros r' k. simpl. unfold http.Header_Set.
    change (textproto.CanonicalMIMEHeaderKey "X-Opaque-Id") with "X-Opaque-Id".
    destruct (decide (k = "X-Opaque-Id")) as [->|Hk].
    - apply lookup_insert_eq.
    - apply lookup_insert_ne. congruence. }
  split; [ | split ].
  - now rewrite Hset.
  - pose proof (Hset r "X-Opaque-Id") as Hmade.
    rewrite decide_True in Hmade by reflexivity.
    change (Options.made_Header (Options.WithOpaqueID s r) !! "X-Opaque-Id" = Some [s])
      in Hmade.
    rewrite WithHeader_singleton.
    change (http.Header_Add (Options.made_Header (Options.WithOpaqueID s r)) name t
              !! "X-Opaque-Id" = Some [s; t]).
    unfold http.Header_Add. rewrite Hname, lookup_insert_eq. now rewrite Hmade.
  - intros k Hk. rewrite Hset. now rewrite decide_False.
Qed.

Lemma opaque_id_replaces_header_appends_witness :
  Header (Options.WithOpaqueID "s-1"
            (Options.WithHeader {[ "x-opaque-id" := "t-1" ]} (zero_request "readall")))
    ≫= lookup "X-Opaque-Id" = Some ["s-1"]
  /\ Header (Options.WithHeader {[ "x-opaque-id" := "t-1" ]}
               (Options.WithOpaqueID "s-1" (zero_request "readall")))
       ≫= lookup "X-Opaque-Id" = Some ["s-1"; "t-1"].
Proof.
  destruct (opaque_id_replaces_header_appends "s-1" "t-1" "x-opaque-id"
              (zero_request "readall") eq_refl) as (Hset & Hadd & _).
  split; [exact Hset | exact Hadd].
Defined.

(** X14.  For the two create/update operations, when the configuration has
    no body and the helper's request has no header, the header set that
    reaches the transport is the configuration's own, its keys spelled as
    they are there (nothing is canonicalised on this path), and it is empty
    when the configuration has none. *)
Theorem headers_forwarded_verbatim `{Package} `{GoRuntime}
    (E : Collaborators) (op : Operation) (r : RequestConfig) (c : option Context)
    (req0 : HTTPRequest.t) :
  is_create op = true ->
  Body r = None ->
  answer_newRequest E (method_of op) (prefix_of op +:+ Role r) (Body r) = inl req0 ->
  HTTPRequest.Header req0 = ∅ ->
  map HTTPRequest.Header (performed (run E (Do_of op r c)).2) = [default ∅ (Header r)].
Proof.
  intros Hop Hbody Hans Hempty.
  rewrite performed_Do_of. unfold body_of. rewrite Hop, Hans. simpl. f_equal.
  unfold prepare. rewrite Hop. unfold prepare_create.
  rewrite bind_context_Header. unfold merge_header, set_content_type. rewrite Hbody.
  assert (Henc : HTTPRequest.Header (encode_params (collect_params r) req0) = ∅).
  { unfold encode_params. now destruct (0 <? size (collect_params r))%nat. }
  destruct (Header r) as [h|]; simpl; [ | exact Henc ].
  destruct (0 <? size h)%nat eqn:Hsz.
  - rewrite Henc. reflexivity.
  - rewrite Henc. apply Nat.ltb_ge in Hsz. assert (Hz : size h = 0%nat) by lia.
    now apply map_size_empty_iff in Hz.
Qed.

Lemma headers_forwarded_verbatim_witness :
  let r := Options.set_Header (Some {[ "x-lower" := ["1"] ]}) (zero_request "readall") in
  map HTTPRequest.Header (performed (run E_ok (Do_of OpRoleCreate r None)).2)
  = [ {[ "x-lower" := ["1"] ]} ].
Proof.
  cbv zeta.
  exact (headers_forwarded_verbatim E_ok OpRoleCreate
           (Options.set_Header (Some {[ "x-lower" := ["1"] ]}) (zero_request "readall"))
           None
           {| HTTPRequest.Method := "PUT";
              HTTPRequest.URL :=
                {| url.Path := "/_plugins/_security/api/roles/readall"; url.RawQuery := "" |};
              HTTPRequest.Header := ∅;
              HTTPRequest.Body := None;
              HTTPRequest.ctx := None |}
           eq_refl eq_refl eq_refl eq_refl).
Defined.

(** ** Delete endpoints and their options *)

Lemma mutator_ctx `{GoRuntime} (s : Setter) (r1 r2 : RequestConfig) :
  ctx r1 = ctx r2 ->
  ctx (mutator s r1)
  = match s with
    | SetContext v => v
    | _ => ctx r2
    end.
Proof. intros Hc. destruct s; simpl; congruence. Qed.

Lemma context_options_decide_ctx `{GoRuntime} (ss : list Setter) (r1 r2 : RequestConfig) :
  ctx r1 = ctx r2 ->
  ctx (apply_options (map mutator ss) r1)
  = ctx (apply_options
           (map mutator
              (List.filter (fun s => match s with SetContext _ => true | _ => false end) ss))
           r2).
Proof.
  revert r1 r2. induction ss as [|s ss IH]; intros r1 r2 Hc; [exact Hc | ].
  change (apply_options (map mutator (s :: ss)) r1)
    with (apply_options (map mutator ss) (mutator s r1)).
  destruct s; simpl List.filter;
    apply IH; rewrite (mutator_ctx _ r1 r2 Hc); reflexivity.
Qed.

(** X15.  For the two delete endpoints, every recognized option other than
    [WithContext] is without effect: a call with any sequence of recognized
    options runs as the call that is given its [WithContext] options only. *)
Theorem delete_options_without_effect `{Package} `{GoRuntime}
    (op : Operation) (role : string) (ss : list Setter) :
  is_create op = false ->
  endpoint op role (map mutator ss)
  = endpoint op role
      (map mutator
         (List.filter (fun s => match s with SetContext _ => true | _ => false end) ss)).
Proof.
  intros Hop. rewrite !endpoint_Do_of.
  rewrite (context_options_decide_ctx ss (zero_request role) (zero_request role) eq_refl).
  destruct op; try discriminate Hop;
    unfold Do_of, RoleDeleteRequest.Do, RoleMappingDeleteRequest.Do, delete_Do;
    now rewrite !setters_Role.
Qed.

Lemma delete_options_without_effect_witness :
  endpoint OpRoleDelete "readall"
    (map mutator [SetTimeout Second; SetContext (Some (mkContext 7)); SetOpaqueID "t-1";
                  SetBody (Some (mkReader []))])
  = endpoint OpRoleDelete "readall" (map mutator [SetContext (Some (mkContext 7))]).
Proof.
  apply (delete_options_without_effect OpRoleDelete "readall"
           [SetTimeout Second; SetContext (Some (mkContext 7)); SetOpaqueID "t-1";
            SetBody (Some (mkReader []))]).
  reflexivity.
Defined.
